(** * open-in-terminal: the command builder of [src/main.ts]

    A shallow embedding of [inferTerminalCommand] and
    [createTerminalCommand], of the settings handlers that feed them, and of
    the earlier copy of both functions kept next to [main.ts].

    Strings are JavaScript strings: finite sequences of UTF-16 code units.
    [os.platform()] is read from the environment by the source; here it is
    an explicit argument. *)

From Stdlib Require Import List Arith NArith Bool Ascii String Lia.
Import ListNotations.
Open Scope string_scope.
Open Scope list_scope.

(* ================================================================== *)
(** ** JavaScript strings *)
(* ================================================================== *)

Module JS.

(** A code unit is a number below 2^16; a string is a list of them. *)
Definition codeUnit := N.
Definition jsstring := list codeUnit.

Definition wellFormed (s : jsstring) : Prop := Forall (fun c => (c < 65536)%N) s.

(** An ASCII literal of the source, as code units. *)
Definition js (s : string) : jsstring :=
  map N_of_ascii (list_ascii_of_string s).

Definition DQUOTE : codeUnit := 34%N.
Definition DOLLAR : codeUnit := 36%N.
Definition AMPERSAND : codeUnit := 38%N.
Definition APOSTROPHE : codeUnit := 39%N.
Definition BACKSLASH : codeUnit := 92%N.
Definition BACKTICK : codeUnit := 96%N.

(** [a === b] on strings. *)
Fixpoint strictEq (a b : jsstring) : bool :=
  match a, b with
  | [], [] => true
  | x :: a', y :: b' => (x =? y)%N && strictEq a' b'
  | _, _ => false
  end.

(** [s.startsWith(p)] *)
Fixpoint startsWith (p s : jsstring) : bool :=
  match p, s with
  | [], _ => true
  | x :: p', y :: s' => (x =? y)%N && startsWith p' s'
  | _ :: _, [] => false
  end.

(** [s.includes(p)] *)
Fixpoint includes (p s : jsstring) : bool :=
  startsWith p s ||
  match s with
  | [] => false
  | _ :: s' => includes p s'
  end.

(** [p] occurs in [s] as a contiguous run of code units. *)
Definition Substring (p s : jsstring) : Prop :=
  exists a b, s = a ++ p ++ b.

(** [xs.join(sep)] *)
Fixpoint join (sep : jsstring) (xs : list jsstring) : jsstring :=
  match xs with
  | [] => []
  | [x] => x
  | x :: rest => x ++ sep ++ join sep rest
  end.

(** White space and line terminators of ECMAScript, the code units that
    [String.prototype.trim] strips: TAB, VT, FF, ZWNBSP, the Unicode space
    separators, LF, CR, LS and PS. *)
Definition isWhiteSpace (c : codeUnit) : bool :=
  ((c =? 9) || (c =? 10) || (c =? 11) || (c =? 12) || (c =? 13) ||
   (c =? 32) || (c =? 160) || (c =? 5760) ||
   ((8192 <=? c) && (c <=? 8202)) ||
   (c =? 8232) || (c =? 8233) || (c =? 8239) || (c =? 8287) ||
   (c =? 12288) || (c =? 65279))%N.

Fixpoint trimStart (s : jsstring) : jsstring :=
  match s with
  | [] => []
  | c :: s' => if isWhiteSpace c then trimStart s' else s
  end.

Definition trimEnd (s : jsstring) : jsstring := rev (trimStart (rev s)).

Definition trim (s : jsstring) : jsstring := trimEnd (trimStart s).

(** *** [String.prototype.replace] with a global regular expression that
    matches one literal and has no capture groups.

    The replacement is a string, so it is a replacement template:
    [GetSubstitution] expands [$$], [$&], [$`] and [$'] in it. With no
    capture group and no named group, [$1]..[$99] and [$<] stand for
    themselves. *)
Fixpoint getSubstitution (matched before after template : jsstring) : jsstring :=
  match template with
  | [] => []
  | c :: rest =>
      if (c =? DOLLAR)%N then
        match rest with
        | [] => [c]
        | d :: rest' =>
            if (d =? DOLLAR)%N then DOLLAR :: getSubstitution matched before after rest'
            else if (d =? BACKTICK)%N then before ++ getSubstitution matched before after rest'
            else if (d =? AMPERSAND)%N then matched ++ getSubstitution matched before after rest'
            else if (d =? APOSTROPHE)%N then after ++ getSubstitution matched before after rest'
            else c :: getSubstitution matched before after rest
        end
      else c :: getSubstitution matched before after rest
  end.

(** The scan of the global replace. [before] is the part of the subject
    already passed, [s] the part still ahead; [skip] counts the code units
    of the current match that are still to be stepped over (the regular
    expression's [lastIndex] lies that far ahead). *)
Fixpoint replaceScan (pat template before s : jsstring) (skip : nat) : jsstring :=
  match s with
  | [] => []
  | c :: s' =>
      match skip with
      | S k => replaceScan pat template (before ++ [c]) s' k
      | O =>
          if startsWith pat s then
            getSubstitution pat before (skipn (List.length pat) s) template
              ++ replaceScan pat template (before ++ [c]) s' (List.length pat - 1)
          else c :: replaceScan pat template (before ++ [c]) s' 0
      end
  end.

(** [s.replace(/pat/g, template)] for a non-empty literal [pat]. *)
Definition replaceGlobal (pat template s : jsstring) : jsstring :=
  replaceScan pat template [] s 0.

End JS.

Export JS.

(* ================================================================== *)
(** ** fp-ts: [Option] and [Either] *)
(* ================================================================== *)

(** [Option<A>] is [option A], with [some] and [none] as [Some] and [None]. *)

Inductive Either (E A : Type) : Type :=
| Left : E -> Either E A
| Right : A -> Either E A.

Arguments Left {E A} _.
Arguments Right {E A} _.

(** [fold(onNone, onSome)] of [fp-ts/lib/Option] *)
Definition fold {A B : Type} (onNone : unit -> B) (onSome : A -> B) (o : option A) : B :=
  match o with
  | None => onNone tt
  | Some a => onSome a
  end.

(** [getOrElse(onNone)] of [fp-ts/lib/Option] *)
Definition getOrElse {A : Type} (onNone : unit -> A) (o : option A) : A :=
  match o with
  | None => onNone tt
  | Some a => a
  end.

(** [fold(onLeft, onRight)] of [fp-ts/lib/Either] *)
Definition eitherFold {E A B : Type} (onLeft : E -> B) (onRight : A -> B)
    (e : Either E A) : B :=
  match e with
  | Left x => onLeft x
  | Right a => onRight a
  end.

(** [pipe(a, f)] *)
Definition pipe {A B : Type} (a : A) (f : A -> B) : B := f a.

(* ================================================================== *)
(** ** [src/main.ts] *)
(* ================================================================== *)

Record PluginSettings : Type := {
  terminalBin : option jsstring;
  terminalArgs : option jsstring
}.

Definition DEFAULT_SETTINGS : PluginSettings :=
  {| terminalBin := None; terminalArgs := None |}.

Record TerminalCommand : Type := {
  binary : jsstring;
  args : list jsstring
}.

(** The three [case] labels of both [switch (platform)] statements. *)
Definition win32 : jsstring := js "win32".
Definition darwin : jsstring := js "darwin".
Definition linux : jsstring := js "linux".

(** The template literal [`Unsupported platform: ${platform}`]. *)
Definition unsupportedPlatform (platform : jsstring) : jsstring :=
  js "Unsupported platform: " ++ platform.

(** The template literal [`"${s}"`]. *)
Definition quoted (s : jsstring) : jsstring := [DQUOTE] ++ s ++ [DQUOTE].

Definition inferTerminalCommand (platform : jsstring) : Either jsstring TerminalCommand :=
  if strictEq platform win32 then
    Right {| binary := js "powershell.exe"; args := [js "-noexit"] |}
  else if strictEq platform darwin then
    Right {| binary := js "Terminal"; args := [] |}
  else if strictEq platform linux then
    Right {| binary := js "gnome-terminal"; args := [js "--working-directory"] |}
  else
    Left (unsupportedPlatform platform).

(** The [onRight] handler of the branch that infers the terminal: the
    platform-default command built from [termCmd]. *)
Definition inferredCommand (platform folderPath : jsstring) (termCmd : TerminalCommand)
    : Either jsstring jsstring :=
  let quotedPath := quoted folderPath in
  if strictEq platform win32 then
    Right (js "start /d " ++ quotedPath ++ js " " ++ binary termCmd ++ js " "
             ++ join (js " ") (args termCmd))
  else if strictEq platform darwin then
    Right (js "open -a " ++ binary termCmd ++ js " " ++ quotedPath)
  else if strictEq platform linux then
    Right (binary termCmd ++ js " " ++ join (js " ") (args termCmd) ++ js "=" ++ quotedPath)
  else
    Left (js "Unsupported platform").

(** The placeholder of a custom argument template, [/\{path\}/g]. *)
Definition pathPlaceholder : jsstring := js "{path}".

(** The [onSome] handler: a custom terminal is set. Its [console.warn]
    writes a log line and returns nothing to the command; it is left out. *)
Definition customCommand (platform : jsstring) (settings : PluginSettings)
    (folderPath customTerminal : jsstring) : Either jsstring jsstring :=
  let quotedPath := quoted folderPath in
  let quotedTerminal := quoted customTerminal in
  let customArgs := pipe (terminalArgs settings) (getOrElse (fun _ => [])) in
  let processedArgs := replaceGlobal pathPlaceholder quotedPath customArgs in
  if negb (strictEq (trim customArgs) []) then
    Right (quotedTerminal ++ js " " ++ processedArgs)
  else if strictEq platform win32 then
    Right (js "start /d " ++ quotedPath ++ js " " ++ quotedTerminal)
  else if strictEq platform darwin then
    Right (js "open -a " ++ quotedTerminal ++ js " " ++ quotedPath)
  else if strictEq platform linux then
    Right (quotedTerminal ++ js " --working-directory=" ++ quotedPath)
  else
    Left (js "Unsupported platform").

Definition createTerminalCommand (platform : jsstring) (settings : PluginSettings)
    (folderPath : jsstring) : Either jsstring jsstring :=
  pipe (terminalBin settings)
    (fold
       (fun _ => pipe (inferTerminalCommand platform)
                   (eitherFold (fun error => Left error)
                               (inferredCommand platform folderPath)))
       (customCommand platform settings folderPath)).

(** The [onChange] handlers of [TerminalSettingTab.display]. *)
Definition onChangeTerminalBin (value : jsstring) (settings : PluginSettings)
    : PluginSettings :=
  {| terminalBin := if strictEq (trim value) [] then None else Some (trim value);
     terminalArgs := terminalArgs settings |}.

Definition onChangeTerminalArgs (value : jsstring) (settings : PluginSettings)
    : PluginSettings :=
  {| terminalBin := terminalBin settings;
     terminalArgs := if strictEq (trim value) [] then None else Some (trim value) |}.

(* ================================================================== *)
(** ** The earlier copy of the two functions

    The repository keeps a second, older copy of the plugin next to
    [main.ts]: one setting only, another record for the inferred terminal,
    and other command shapes on Windows. The comments of [main.ts]
    ([Fixed: ...]) refer to it. *)
(* ================================================================== *)

Module Part000.

Record PluginSettings : Type := {
  terminalBin : option jsstring
}.

Definition DEFAULT_SETTINGS : PluginSettings := {| terminalBin := None |}.

Record TerminalCommand : Type := {
  command : jsstring;
  args : list jsstring
}.

Definition inferTerminalCommand (platform : jsstring) : Either jsstring TerminalCommand :=
  if strictEq platform win32 then
    Right {| command := js "start powershell.exe"; args := [] |}
  else if strictEq platform darwin then
    Right {| command := js "open"; args := [js "-a"; js "Terminal"] |}
  else if strictEq platform linux then
    Right {| command := js "gnome-terminal"; args := [js "--working-directory"] |}
  else
    Left (unsupportedPlatform platform).

Definition inferredCommand (platform folderPath : jsstring) (termCmd : TerminalCommand)
    : Either jsstring jsstring :=
  if strictEq platform win32 then
    Right (command termCmd ++ js " " ++ join (js " ") (args termCmd) ++ js " "
             ++ [DQUOTE] ++ js "cd /d " ++ [BACKSLASH; DQUOTE] ++ folderPath
             ++ [BACKSLASH; DQUOTE] ++ [DQUOTE])
  else if strictEq platform darwin then
    Right (command termCmd ++ js " " ++ join (js " ") (args termCmd) ++ js " "
             ++ quoted folderPath)
  else if strictEq platform linux then
    Right (command termCmd ++ js " " ++ join (js " ") (args termCmd) ++ js "="
             ++ quoted folderPath)
  else
    Left (js "Unsupported platform").

Definition customCommand (platform folderPath customTerminal : jsstring)
    : Either jsstring jsstring :=
  if strictEq platform win32 then
    Right (quoted customTerminal)
  else if strictEq platform darwin then
    Right (js "open -a " ++ quoted customTerminal ++ js " " ++ quoted folderPath)
  else if strictEq platform linux then
    Right (quoted customTerminal ++ js " --working-directory=" ++ quoted folderPath)
  else
    Left (js "Unsupported platform").

Definition createTerminalCommand (platform : jsstring) (settings : PluginSettings)
    (folderPath : jsstring) : Either jsstring jsstring :=
  pipe (terminalBin settings)
    (fold
       (fun _ => pipe (inferTerminalCommand platform)
                   (eitherFold (fun error => Left error)
                               (inferredCommand platform folderPath)))
       (customCommand platform folderPath)).

End Part000.

(* ================================================================== *)
(** ** Vocabulary of the statements *)
(* ================================================================== *)

(** The platforms the two [switch] statements name. *)
Definition recognized (platform : jsstring) : Prop :=
  platform = win32 \/ platform = darwin \/ platform = linux.

(** An error of the unsupported-platform kind: one of the two messages the
    source builds, with or without the identifier. *)
Definition isUnsupportedPlatform (r : Either jsstring jsstring) : Prop :=
  exists message, r = Left message /\ startsWith (js "Unsupported platform") message = true.

(** [out] holds [folderPath] between one pair of double quotes and no
    other double quote around it. *)
Definition QuotesPathOnce (folderPath out : jsstring) : Prop :=
  exists pre post,
    out = pre ++ [DQUOTE] ++ folderPath ++ [DQUOTE] ++ post /\
    ~ In DQUOTE pre /\ ~ In DQUOTE post.

(** A string [trim] empties: the template or binary is blank. *)
Definition blank (s : jsstring) : Prop := trim s = [].

(** An optional template that counts as no template. *)
Definition noTemplate (t : option jsstring) : Prop :=
  match t with
  | None => True
  | Some s => blank s
  end.

(** The platform-default command with [customTerminal], quoted, put where
    the inferred binary stands: the handler of the inferring branch run on
    the defaults of [platform] with the binary replaced. *)
Definition defaultShapeWith (platform folderPath customTerminal : jsstring)
    : Either jsstring jsstring :=
  pipe (inferTerminalCommand platform)
    (eitherFold (fun error => Left error)
       (fun termCmd =>
          inferredCommand platform folderPath
            {| binary := quoted customTerminal; args := args termCmd |})).

(** Every occurrence of [token] replaced, in the words of the
    specification: the text is cut at the occurrences of [token] and the
    pieces are joined again with [replacement]. [pieces] is such a cut of
    [text] when joining it with [token] gives [text] back and no piece
    holds the token. *)
Definition cutAt (token text : jsstring) (pieces : list jsstring) : Prop :=
  pieces <> [] /\ text = join token pieces /\
  Forall (fun piece => includes token piece = false) pieces.

Definition substituteAll (replacement : jsstring) (pieces : list jsstring) : jsstring :=
  join replacement pieces.

(* ================================================================== *)
(** ** The plugin around the builder: what a call does

    The methods of [OpenInTerminalPlugin] act on the host: they write to
    the console, show a [Notice] and hand a command to [exec]. A call is
    modelled by the list of these actions in the order the source performs
    them, those of the callback of [exec] included when [exec] calls it;
    an exception that leaves the call ends the list. What the host decides
    is an argument: what [exec] does with a command, the vault adapter,
    [path.join], the stored data. *)
(* ================================================================== *)

(** An [Error] object, as far as the source reads it: [error.message]. *)
Record JsError : Type := { message : jsstring }.

(** An argument of a [console] call. *)
Inductive LogValue : Type :=
| Str : jsstring -> LogValue
| Err : JsError -> LogValue.

(** [exec c] is the call of [exec] on the command [c]; [thrown e] is an
    exception leaving the call, after which the call does nothing more. *)
Inductive Event : Type :=
| consoleLog : list LogValue -> Event
| consoleWarn : list LogValue -> Event
| consoleError : list LogValue -> Event
| newNotice : jsstring -> Event
| exec : jsstring -> Event
| thrown : JsError -> Event.

(** The three arguments of the callback of [exec]. *)
Record ExecOutcome : Type := {
  error : option JsError;
  stdout : jsstring;
  stderr : jsstring
}.

(** What [exec] does with a command. It throws at once, as it does on a
    command that holds a NUL code unit, and then starts no process and
    never calls back; or it starts the process and has not called back,
    as long as the process runs; or it has called back with an outcome. *)
Inductive ExecResult : Type :=
| execThrows : JsError -> ExecResult
| execPending : ExecResult
| execCalls : ExecOutcome -> ExecResult.

(** [try { body } catch (error) { handler }] on the actions of [body]:
    they are performed up to an exception, which the handler takes. *)
Fixpoint tryCatch (body : list Event) (handler : JsError -> list Event)
    : list Event :=
  match body with
  | [] => []
  | thrown e :: _ => handler e
  | event :: rest => event :: tryCatch rest handler
  end.

(** [if (s)] on a string: the empty string is falsy. *)
Definition truthy (s : jsstring) : bool :=
  match s with
  | [] => false
  | _ :: _ => true
  end.

(** The [console.warn] of the branch of [createTerminalCommand] that uses
    the custom terminal. *)
Definition createTerminalCommandLog (settings : PluginSettings) : list Event :=
  pipe (terminalBin settings)
    (fold (fun _ => [])
          (fun customTerminal =>
             [consoleWarn [Str (js "Using custom terminal:"); Str customTerminal]])).

(** The callback given to [exec] in [openTerminalInPath]. *)
Definition execCallback (command : jsstring) (outcome : ExecOutcome) : list Event :=
  match error outcome with
  | Some e =>
      [consoleError [Str (js "Error opening terminal:"); Err e];
       consoleError [Str (js "Command that failed:"); Str command]]
      ++ (if truthy (stderr outcome)
          then [consoleError [Str (js "stderr:"); Str (stderr outcome)]] else [])
      ++ [newNotice (js "Failed to open terminal: " ++ message e)]
  | None =>
      [consoleLog [Str (js "Terminal opened successfully")]]
      ++ (if truthy (stdout outcome)
          then [consoleLog [Str (js "stdout:"); Str (stdout outcome)]] else [])
      ++ [newNotice (js "Terminal opened successfully")]
  end.

(** [openTerminalInPath]; [run] is what [exec] of the host does with a
    command. The method has no [try]: a throw of [exec] leaves it. *)
Definition openTerminalInPath (platform : jsstring) (settings : PluginSettings)
    (run : jsstring -> ExecResult) (folderPath : jsstring) : list Event :=
  [consoleLog [Str (js "Opening terminal in path:"); Str folderPath]]
  ++ createTerminalCommandLog settings
  ++ pipe (createTerminalCommand platform settings folderPath)
       (eitherFold
          (fun error =>
             [consoleError [Str (js "Error creating terminal command:"); Str error];
              newNotice (js "Failed to create terminal command: " ++ error)])
          (fun command =>
             [consoleLog [Str (js "Executing command:"); Str command];
              exec command]
             ++ match run command with
                | execThrows e => [thrown e]
                | execPending => []
                | execCalls outcome => execCallback command outcome
                end)).

(** [this.app.vault.adapter]: a [FileSystemAdapter], whose [getBasePath]
    returns a string ([Right]) or throws ([Left]), or another adapter. *)
Inductive DataAdapter : Type :=
| FileSystemAdapter : Either JsError jsstring -> DataAdapter
| OtherAdapter : DataAdapter.

(** The call [adapter.getBasePath()] inside a [try] block, followed by
    [rest] on the string it returns. *)
Definition callGetBasePath (getBasePath : Either JsError jsstring)
    (rest : jsstring -> list Event) : list Event :=
  match getBasePath with
  | Left e => [thrown e]
  | Right basePath => rest basePath
  end.

Record TFolder : Type := { path : jsstring }.

(** The callback of the command [open-terminal-vault-root]. Its [try]
    block takes what [getBasePath] throws and what [exec] throws inside
    [openTerminalInPath] alike. *)
Definition openTerminalVaultRoot (platform : jsstring) (settings : PluginSettings)
    (run : jsstring -> ExecResult) (adapter : DataAdapter) : list Event :=
  match adapter with
  | FileSystemAdapter getBasePath =>
      tryCatch
        (callGetBasePath getBasePath (fun basePath =>
           if truthy basePath then
             openTerminalInPath platform settings run basePath
           else
             [newNotice (js "Could not determine vault path.")]))
        (fun error =>
           [consoleError [Str (js "Error getting vault path:"); Err error];
            newNotice (js "Could not determine vault path.")])
  | OtherAdapter => []
  end.

(** [openTerminalInFolder]; [pathJoin] is [path.join] of the host. *)
Definition openTerminalInFolder (platform : jsstring) (settings : PluginSettings)
    (run : jsstring -> ExecResult) (pathJoin : jsstring -> jsstring -> jsstring)
    (adapter : DataAdapter) (folder : TFolder) : list Event :=
  match adapter with
  | FileSystemAdapter getBasePath =>
      tryCatch
        (callGetBasePath getBasePath (fun vaultPath =>
           if truthy vaultPath then
             let folderPath := pathJoin vaultPath (path folder) in
             openTerminalInPath platform settings run folderPath
           else
             [newNotice (js "Could not determine vault path.")]))
        (fun error =>
           [consoleError [Str (js "Error getting folder path:"); Err error];
            newNotice (js "Could not determine folder path.")])
  | OtherAdapter => []
  end.

(** What [loadData] returns: nothing, or an object that has each of the
    two keys or lacks it. *)
Record StoredData : Type := {
  storedTerminalBin : option (option jsstring);
  storedTerminalArgs : option (option jsstring)
}.

(** [loadSettings]: [Object.assign({}, DEFAULT_SETTINGS, data)]. *)
Definition loadSettings (data : option StoredData) : PluginSettings :=
  match data with
  | None => DEFAULT_SETTINGS
  | Some d =>
      {| terminalBin := getOrElse (fun _ => terminalBin DEFAULT_SETTINGS)
                          (storedTerminalBin d);
         terminalArgs := getOrElse (fun _ => terminalArgs DEFAULT_SETTINGS)
                           (storedTerminalArgs d) |}
  end.

(** [saveSettings]: the object handed to [saveData]. *)
Definition saveSettings (settings : PluginSettings) : StoredData :=
  {| storedTerminalBin := Some (terminalBin settings);
     storedTerminalArgs := Some (terminalArgs settings) |}.

(** The line [System default terminal: ...] of the settings tab. *)
Definition inferredTerminalText (platform : jsstring) : jsstring :=
  let inferredTerminal :=
    pipe (inferTerminalCommand platform)
      (eitherFold
         (fun error => js "Error: " ++ error)
         (fun termCmd =>
            binary termCmd ++ js " (with args: " ++ join (js " ") (args termCmd)
              ++ js ")")) in
  js "System default terminal: " ++ inferredTerminal.

(** The value the settings tab shows in a text field. *)
Definition fieldValue (field : option jsstring) : jsstring :=
  pipe field (getOrElse (fun _ => [])).

(** The methods of the earlier copy. Its adapter is read through the
    [path] property, which may be undefined; its callback of [exec] reads
    the error only, and no method has a [try]. *)
Module Part000Plugin.

Definition execCallback (error : option JsError) : list Event :=
  match error with
  | Some e =>
      [consoleError [Str (js "Error opening terminal:"); Err e];
       newNotice (js "Failed to open terminal: " ++ message e)]
  | None => [newNotice (js "Terminal opened successfully")]
  end.

Definition openTerminalInPath (platform : jsstring) (settings : Part000.PluginSettings)
    (run : jsstring -> ExecResult) (folderPath : jsstring) : list Event :=
  pipe (Part000.createTerminalCommand platform settings folderPath)
    (eitherFold
       (fun error =>
          [consoleError [Str (js "Error creating terminal command:"); Str error];
           newNotice (js "Failed to create terminal command: " ++ error)])
       (fun command =>
          exec command
          :: match run command with
             | execThrows e => [thrown e]
             | execPending => []
             | execCalls outcome => execCallback (error outcome)
             end)).

(** [this.app.vault.adapter.path || ''] *)
Definition vaultPathOf (adapterPath : option jsstring) : jsstring :=
  match adapterPath with
  | Some p => if truthy p then p else []
  | None => []
  end.

Definition openTerminalVaultRoot (platform : jsstring) (settings : Part000.PluginSettings)
    (run : jsstring -> ExecResult) (adapterPath : option jsstring) : list Event :=
  openTerminalInPath platform settings run (vaultPathOf adapterPath).

Definition openTerminalInFolder (platform : jsstring) (settings : Part000.PluginSettings)
    (run : jsstring -> ExecResult) (pathJoin : jsstring -> jsstring -> jsstring)
    (adapterPath : option jsstring) (folder : TFolder) : list Event :=
  let vaultPath := vaultPathOf adapterPath in
  let folderPath := pathJoin vaultPath (path folder) in
  openTerminalInPath platform settings run folderPath.

(** The object the earlier copy hands to [saveData]: one key. *)
Definition saveSettings (settings : Part000.PluginSettings) : StoredData :=
  {| storedTerminalBin := Some (Part000.terminalBin settings);
     storedTerminalArgs := None |}.

End Part000Plugin.

(** *** Vocabulary of the statements about calls *)

Definition isNotice (e : Event) : bool :=
  match e with newNotice _ => true | _ => false end.

Definition isExec (e : Event) : bool :=
  match e with exec _ => true | _ => false end.

Definition isConsoleError (e : Event) : bool :=
  match e with consoleError _ => true | _ => false end.

(** The notices shown and the commands spawned during a call, in order. *)
Definition notices (trace : list Event) : list jsstring :=
  flat_map (fun e => match e with newNotice m => [m] | _ => [] end) trace.

Definition spawned (trace : list Event) : list jsstring :=
  flat_map (fun e => match e with exec c => [c] | _ => [] end) trace.

Definition consoleErrors (trace : list Event) : nat :=
  List.length (filter isConsoleError trace).

(** The exceptions that leave a call. *)
Definition escaped (trace : list Event) : list JsError :=
  flat_map (fun e => match e with thrown x => [x] | _ => [] end) trace.

(** The notice that ends a run of the command. *)
Definition outcomeNotice (outcome : ExecOutcome) : jsstring :=
  match error outcome with
  | Some e => js "Failed to open terminal: " ++ message e
  | None => js "Terminal opened successfully"
  end.

(** The notices of a call of [openTerminalInPath] whose command [exec]
    took: none when [exec] throws or has not called back. *)
Definition execNotices (result : ExecResult) : list jsstring :=
  match result with
  | execCalls outcome => [outcomeNotice outcome]
  | execThrows _ | execPending => []
  end.

(** A dollar sign followed by one of the four code units that make a
    replacement pattern with it. *)
Fixpoint hasDollarPattern (s : jsstring) : bool :=
  match s with
  | [] => false
  | c :: rest =>
      match rest with
      | [] => false
      | d :: _ =>
          ((c =? DOLLAR) &&
           ((d =? DOLLAR) || (d =? BACKTICK) || (d =? AMPERSAND) || (d =? APOSTROPHE)))%N
          || hasDollarPattern rest
      end
  end.

(** White space at neither end. *)
Definition trimmed (s : jsstring) : Prop :=
  match s with
  | [] => True
  | c :: _ => isWhiteSpace c = false
  end /\
  match rev s with
  | [] => True
  | c :: _ => isWhiteSpace c = false
  end.

(** Settings as the two change handlers leave them. *)
Definition normalised (field : option jsstring) : Prop :=
  match field with
  | None => True
  | Some s => s <> [] /\ trimmed s
  end.

(* ================================================================== *)
(** ** Facts about JavaScript strings *)
(* ================================================================== *)

Section StringFacts.

(** The literals of the source are well-formed strings. *)
Lemma js_wellFormed (s : string) : wellFormed (js s).
Proof.
  unfold wellFormed, js. apply Forall_forall. intros c Hc.
  apply in_map_iff in Hc as (a & <- & _).
  pose proof (N_ascii_bounded a). lia.
Qed.

Lemma strictEq_refl (a : jsstring) : strictEq a a = true.
Proof.
  induction a as [|x a IH]; simpl; [reflexivity|].
  now rewrite N.eqb_refl, IH.
Qed.

Lemma strictEq_eq (a b : jsstring) : strictEq a b = true <-> a = b.
Proof.
  split; [|intros ->; apply strictEq_refl].
  revert b; induction a as [|x a IH]; intros [|y b]; simpl; try discriminate; auto.
  intros H; apply andb_true_iff in H as [Hx Hr].
  apply N.eqb_eq in Hx; apply IH in Hr; congruence.
Qed.

Lemma strictEq_neq (a b : jsstring) : strictEq a b = false <-> a <> b.
Proof.
  rewrite <- strictEq_eq. destruct (strictEq a b); split; congruence.
Qed.

Lemma startsWith_app (p r : jsstring) : startsWith p (p ++ r) = true.
Proof.
  induction p as [|x p IH]; simpl; [reflexivity|].
  now rewrite N.eqb_refl, IH.
Qed.

Lemma startsWith_inv (p s : jsstring) :
  startsWith p s = true -> exists r, s = p ++ r.
Proof.
  revert s; induction p as [|x p IH]; intros s H; simpl in *.
  - now exists s.
  - destruct s as [|y s]; [discriminate|].
    apply andb_true_iff in H as [Hx Hr].
    apply N.eqb_eq in Hx; subst y.
    destruct (IH _ Hr) as [r ->]. now exists r.
Qed.

Lemma startsWith_extend (p s r : jsstring) :
  startsWith p s = true -> startsWith p (s ++ r) = true.
Proof.
  intros H; destruct (startsWith_inv _ _ H) as [q ->].
  rewrite <- app_assoc. apply startsWith_app.
Qed.

Lemma startsWith_includes (p s : jsstring) :
  startsWith p s = true -> includes p s = true.
Proof. intros H; destruct s; simpl; now rewrite H. Qed.

Lemma includes_Substring (p s : jsstring) :
  includes p s = true <-> Substring p s.
Proof.
  split.
  - induction s as [|c s IH]; simpl; intros H.
    + rewrite orb_false_r in H. destruct (startsWith_inv _ _ H) as [r Hr].
      exists [], r. exact Hr.
    + apply orb_true_iff in H as [H|H].
      * destruct (startsWith_inv _ _ H) as [r Hr]. exists [], r. exact Hr.
      * destruct (IH H) as (a & b & ->). now exists (c :: a), b.
  - intros (a & b & ->). induction a as [|c a IH]; simpl.
    + apply startsWith_includes, startsWith_app.
    + rewrite IH. apply orb_true_r.
Qed.

(** *** [trim] *)

Lemma trimStart_blank (s : jsstring) :
  trimStart s = [] <-> forallb isWhiteSpace s = true.
Proof.
  induction s as [|c s IH]; simpl; [tauto|].
  destruct (isWhiteSpace c); simpl; [exact IH|].
  split; discriminate.
Qed.

Lemma trimStart_head (s : jsstring) :
  match trimStart s with
  | [] => True
  | c :: _ => isWhiteSpace c = false
  end.
Proof.
  induction s as [|c s IH]; simpl; [exact I|].
  destruct (isWhiteSpace c) eqn:E; [exact IH | exact E].
Qed.

Lemma forallb_rev (f : codeUnit -> bool) (s : jsstring) :
  forallb f (rev s) = forallb f s.
Proof.
  induction s as [|c s IH]; simpl; [reflexivity|].
  rewrite forallb_app, IH; simpl. rewrite andb_true_r. apply andb_comm.
Qed.

(** [trim] empties exactly the strings made of white space only. *)
Lemma trim_blank (s : jsstring) :
  trim s = [] <-> forallb isWhiteSpace s = true.
Proof.
  unfold trim, trimEnd. split.
  - intros H.
    assert (H1 : trimStart (rev (trimStart s)) = []).
    { destruct (trimStart (rev (trimStart s))) as [|x l]; [reflexivity|].
      simpl in H. now apply app_eq_nil in H as [_ H]. }
    apply trimStart_blank in H1. rewrite forallb_rev in H1.
    pose proof (trimStart_head s) as Hh.
    destruct (trimStart s) as [|c r] eqn:E.
    + now apply trimStart_blank.
    + simpl in H1. rewrite Hh in H1. discriminate.
  - intros H. apply trimStart_blank in H. now rewrite H.
Qed.

(** *** The global replace *)

Variables pat template : jsstring.

Lemma replaceScan_skip (u before rest : jsstring) :
  replaceScan pat template before (u ++ rest) (List.length u)
  = replaceScan pat template (before ++ u) rest 0.
Proof.
  revert before; induction u as [|c u IH]; intros before; simpl.
  - rewrite app_nil_r. now destruct rest.
  - rewrite IH, <- app_assoc. reflexivity.
Qed.

Lemma replaceScan_match (before rest : jsstring) :
  pat <> [] ->
  replaceScan pat template before (pat ++ rest) 0
  = getSubstitution pat before rest template
      ++ replaceScan pat template (before ++ pat) rest 0.
Proof.
  intros Hne.
  assert (Hs : exists c p, pat = c :: p /\
             replaceScan pat template before (pat ++ rest) 0
               = getSubstitution pat before (skipn (List.length pat) (pat ++ rest)) template
                 ++ replaceScan pat template (before ++ [c]) (p ++ rest)
                      (List.length pat - 1)).
  { pose proof (startsWith_app pat rest) as Hsw.
    destruct pat as [|c p]; [congruence|].
    exists c, p. split; [reflexivity|].
    change ((c :: p) ++ rest) with (c :: p ++ rest) in *.
    cbn [replaceScan]. now rewrite Hsw. }
  destruct Hs as (c & p & E & Hs).
  rewrite Hs, skipn_app, skipn_all, Nat.sub_diag; simpl skipn.
  f_equal.
  replace (List.length pat - 1) with (List.length p) by (rewrite E; simpl; lia).
  rewrite replaceScan_skip, <- app_assoc, E. reflexivity.
Qed.

Lemma replaceScan_step (before s : jsstring) (c : codeUnit) :
  startsWith pat (c :: s) = false ->
  replaceScan pat template before (c :: s) 0
  = c :: replaceScan pat template (before ++ [c]) s 0.
Proof. intros H. cbn [replaceScan]. now rewrite H. Qed.

(** A stretch [u] in which no match starts is copied unchanged. *)
Lemma replaceScan_copy (u before rest : jsstring) :
  (forall a b, u = a ++ b -> b <> [] -> startsWith pat (b ++ rest) = false) ->
  replaceScan pat template before (u ++ rest) 0
  = u ++ replaceScan pat template (before ++ u) rest 0.
Proof.
  revert before; induction u as [|c u IH]; intros before H; simpl app.
  - now rewrite app_nil_r.
  - rewrite replaceScan_step.
    + rewrite IH, <- app_assoc; [reflexivity|].
      intros a b -> Hb. apply (H (c :: a) b); auto.
    + apply (H [] (c :: u)); [reflexivity | discriminate].
Qed.

Lemma includes_suffix (a b : jsstring) :
  includes pat (a ++ b) = false -> includes pat b = false.
Proof.
  induction a as [|c a IH]; simpl; [auto|].
  intros H. apply orb_false_iff in H as [_ H]. auto.
Qed.

Lemma includes_startsWith (s : jsstring) :
  includes pat s = false -> startsWith pat s = false.
Proof.
  destruct s; simpl; intros H; now apply orb_false_iff in H as [H _].
Qed.

(** A subject without any occurrence of the pattern is returned as it is,
    whatever the replacement template. *)
Lemma replaceGlobal_absent (s : jsstring) :
  includes pat s = false -> replaceGlobal pat template s = s.
Proof.
  intros H. unfold replaceGlobal.
  rewrite <- (app_nil_r s) at 1. rewrite replaceScan_copy.
  - simpl. now rewrite app_nil_r.
  - intros a b -> _. rewrite app_nil_r.
    apply includes_startsWith. eapply includes_suffix; eauto.
Qed.

End StringFacts.

(* ================================================================== *)
(** ** The placeholder and the replacement template *)
(* ================================================================== *)

Section Placeholder.

(** A replacement without a dollar sign is inserted as it is. *)
Lemma getSubstitution_plain (matched before after template : jsstring) :
  ~ In DOLLAR template ->
  getSubstitution matched before after template = template.
Proof.
  induction template as [|c r IH]; intros H; [reflexivity|].
  cbn [getSubstitution].
  destruct (c =? DOLLAR)%N eqn:E.
  - apply N.eqb_eq in E. exfalso. apply H. now left.
  - f_equal. apply IH. intros Hin. apply H. now right.
Qed.

Lemma quoted_no_dollar (s : jsstring) : ~ In DOLLAR s -> ~ In DOLLAR (quoted s).
Proof.
  unfold quoted. intros H Hin.
  apply in_app_or in Hin as [Hin|Hin].
  - destruct Hin as [Hin|[]]. discriminate Hin.
  - apply in_app_or in Hin as [Hin|Hin]; [auto|].
    destruct Hin as [Hin|[]]. discriminate Hin.
Qed.

(** [{path}] has no border: an occurrence that starts inside a stretch [b]
    and runs into a following [{path}] already lies inside [b]. *)
Lemma pathPlaceholder_no_overlap (b r : jsstring) :
  b <> [] ->
  startsWith pathPlaceholder (b ++ pathPlaceholder ++ r) = true ->
  startsWith pathPlaceholder b = true.
Proof.
  intros Hb H. apply startsWith_inv in H as [q H].
  destruct b as [|b0 [|b1 [|b2 [|b3 [|b4 [|b5 b']]]]]];
    [congruence | try discriminate H ..| ].
  injection H as -> -> -> -> -> -> _. reflexivity.
Qed.

Lemma pathPlaceholder_copy (template u before rest : jsstring) :
  includes pathPlaceholder u = false ->
  replaceScan pathPlaceholder template before (u ++ pathPlaceholder ++ rest) 0
  = u ++ replaceScan pathPlaceholder template (before ++ u) (pathPlaceholder ++ rest) 0.
Proof.
  intros Hu. apply replaceScan_copy.
  intros a b -> Hb.
  destruct (startsWith pathPlaceholder (b ++ pathPlaceholder ++ rest)) eqn:E;
    [|reflexivity].
  apply pathPlaceholder_no_overlap in E; [|assumption].
  apply includes_suffix, includes_startsWith in Hu. congruence.
Qed.

(** With a replacement that holds no dollar sign, the global replace of
    [{path}] turns the pieces between the placeholders, joined by the
    placeholder, into the same pieces joined by the replacement. *)
Lemma replaceScan_pieces (replacement : jsstring) (pieces : list jsstring) :
  ~ In DOLLAR replacement ->
  pieces <> [] ->
  Forall (fun piece => includes pathPlaceholder piece = false) pieces ->
  forall before,
    replaceScan pathPlaceholder replacement before (join pathPlaceholder pieces) 0
    = join replacement pieces.
Proof.
  intros Hd Hne Hall. induction Hall as [|u rest Hu Hrest IH]; [congruence|].
  intros before. destruct rest as [|v rest].
  - simpl join. rewrite <- (app_nil_r u) at 1.
    rewrite replaceScan_copy; [simpl; now rewrite app_nil_r|].
    intros a b -> _. rewrite app_nil_r.
    apply includes_startsWith. eapply includes_suffix; eauto.
  - change (join pathPlaceholder (u :: v :: rest))
      with (u ++ pathPlaceholder ++ join pathPlaceholder (v :: rest)).
    change (join replacement (u :: v :: rest))
      with (u ++ replacement ++ join replacement (v :: rest)).
    rewrite pathPlaceholder_copy by assumption.
    rewrite replaceScan_match by discriminate.
    rewrite getSubstitution_plain by assumption.
    rewrite IH by discriminate. reflexivity.
Qed.

(** The first occurrence of a token. *)
Lemma first_occurrence (token s : jsstring) :
  token <> [] ->
  includes token s = true ->
  exists a b, s = a ++ token ++ b /\ includes token a = false.
Proof.
  intros Hne. induction s as [|c s IH]; intros H.
  - simpl in H. rewrite orb_false_r in H.
    destruct token; [congruence | discriminate].
  - destruct (startsWith token (c :: s)) eqn:E.
    + destruct (startsWith_inv _ _ E) as [r Hr].
      exists [], r. split; [exact Hr|].
      destruct token; [congruence | reflexivity].
    + simpl in H. simpl in E. rewrite E in H. simpl in H.
      destruct (IH H) as (a & b & -> & Ha).
      exists (c :: a), b. split; [reflexivity|].
      change (includes token (c :: a))
        with (startsWith token (c :: a) || includes token a).
      rewrite Ha, orb_false_r.
      destruct (startsWith token (c :: a)) eqn:E'; [|reflexivity].
      apply startsWith_extend with (r := token ++ b) in E'.
      simpl in E'. congruence.
Qed.

(** Every text has a cut at the occurrences of a non-empty token. *)
Lemma cutAt_exists (token : jsstring) :
  token <> [] -> forall text, exists pieces, cutAt token text pieces.
Proof.
  intros Hne text.
  remember (List.length text) as n eqn:Hn.
  revert text Hn. induction n as [n IH] using lt_wf_ind. intros text Hn.
  destruct (includes token text) eqn:E.
  - destruct (@first_occurrence token text Hne E) as (a & b & -> & Ha).
    destruct (IH (List.length b)) with (text := b) as (pieces & Hp & -> & Hall);
      [|reflexivity|].
    + subst n. rewrite !length_app. destruct token; [congruence|simpl; lia].
    + exists (a :: pieces). split; [discriminate|]. split.
      * destruct pieces; [congruence | reflexivity].
      * now constructor.
  - exists [text]. split; [discriminate|]. split; [reflexivity|].
    now constructor.
Qed.

End Placeholder.

(* ================================================================== *)
(** ** Platform inference *)
(* ================================================================== *)

(** Decides membership of a literal: [vm_compute] lists the code units. *)
Ltac literal_lacks :=
  let H := fresh "Hin" in
  intros H; vm_compute in H;
  repeat (destruct H as [H|H]; [discriminate H|]); exact H.

(** Exhibits an occurrence by its two sides. *)
Ltac occurs_between pre post :=
  exists pre, post; unfold quoted; rewrite <- ?app_assoc; reflexivity.

Lemma unrecognized_switch (platform : jsstring) :
  ~ recognized platform ->
  strictEq platform win32 = false /\
  strictEq platform darwin = false /\
  strictEq platform linux = false.
Proof.
  unfold recognized. intros H.
  repeat split; apply strictEq_neq; intros E; apply H; auto.
Qed.

Lemma unsupportedPlatform_carries (p q : jsstring) :
  unsupportedPlatform p = unsupportedPlatform q -> p = q.
Proof. unfold unsupportedPlatform. apply app_inv_head. Qed.

Lemma unsupportedPlatform_kind (platform : jsstring) :
  isUnsupportedPlatform (Left (unsupportedPlatform platform)).
Proof.
  exists (unsupportedPlatform platform). split; [reflexivity|].
  unfold unsupportedPlatform.
  change (js "Unsupported platform: ") with (js "Unsupported platform" ++ js ": ").
  rewrite <- app_assoc. apply startsWith_app.
Qed.

(** The defaults of the three platforms, as the source lists them. *)
Lemma inferTerminalCommand_defaults :
  inferTerminalCommand win32
    = Right {| binary := js "powershell.exe"; args := [js "-noexit"] |} /\
  inferTerminalCommand darwin
    = Right {| binary := js "Terminal"; args := [] |} /\
  inferTerminalCommand linux
    = Right {| binary := js "gnome-terminal"; args := [js "--working-directory"] |}.
Proof. repeat split. Qed.

(** C1. On each recognized platform identifier ([win32], [darwin],
    [linux]) [inferTerminalCommand] returns a terminal command (a binary
    name and a list of default arguments) and no error; on every other
    identifier it returns the unsupported-platform error built from that
    very identifier, from which the identifier can be read back, and no
    command. *)
Theorem inferTerminalCommand_recognized_or_unsupported (platform : jsstring) :
  (recognized platform ->
     exists termCmd, inferTerminalCommand platform = Right termCmd) /\
  (~ recognized platform ->
     inferTerminalCommand platform = Left (unsupportedPlatform platform) /\
     forall other,
       inferTerminalCommand platform = Left (unsupportedPlatform other) ->
       other = platform).
Proof.
  split.
  - intros [ -> | [ -> | -> ] ]; eexists; reflexivity.
  - intros H. destruct (unrecognized_switch platform H) as (Hw & Hd & Hl).
    unfold inferTerminalCommand. rewrite Hw, Hd, Hl.
    split; [reflexivity|].
    intros other E. symmetry. apply unsupportedPlatform_carries. congruence.
Qed.

Lemma inferTerminalCommand_recognized_or_unsupported_witness :
  (exists termCmd, inferTerminalCommand linux = Right termCmd) /\
  inferTerminalCommand (js "freebsd") = Left (unsupportedPlatform (js "freebsd")).
Proof.
  split.
  - apply (proj1 (inferTerminalCommand_recognized_or_unsupported linux)).
    right; right; reflexivity.
  - apply (proj2 (inferTerminalCommand_recognized_or_unsupported (js "freebsd"))).
    intros [E|[E|E]]; vm_compute in E; discriminate E.
Defined.

(** The earlier copy infers with the same error and other records. *)
Lemma earlier_copy_infers_alike (platform : jsstring) :
  (recognized platform ->
     exists termCmd, Part000.inferTerminalCommand platform = Right termCmd) /\
  (~ recognized platform ->
     Part000.inferTerminalCommand platform = Left (unsupportedPlatform platform)).
Proof.
  split.
  - intros [ -> | [ -> | -> ] ]; eexists; reflexivity.
  - intros H. destruct (unrecognized_switch platform H) as (Hw & Hd & Hl).
    unfold Part000.inferTerminalCommand. now rewrite Hw, Hd, Hl.
Qed.

(* ================================================================== *)
(** ** The command builder without a custom terminal *)
(* ================================================================== *)

Lemma createTerminalCommand_inferred (platform : jsstring) (settings : PluginSettings)
    (folderPath : jsstring) :
  terminalBin settings = None ->
  createTerminalCommand platform settings folderPath
  = eitherFold (fun error => Left error) (inferredCommand platform folderPath)
      (inferTerminalCommand platform).
Proof. intros H. unfold createTerminalCommand, pipe. now rewrite H. Qed.

Lemma createTerminalCommand_custom (platform : jsstring) (settings : PluginSettings)
    (folderPath customTerminal : jsstring) :
  terminalBin settings = Some customTerminal ->
  createTerminalCommand platform settings folderPath
  = customCommand platform settings folderPath customTerminal.
Proof. intros H. unfold createTerminalCommand, pipe. now rewrite H. Qed.

(** The three commands of the inferring branch. *)
Lemma createTerminalCommand_inferred_shapes (settings : PluginSettings)
    (folderPath : jsstring) :
  terminalBin settings = None ->
  createTerminalCommand win32 settings folderPath
    = Right (js "start /d " ++ quoted folderPath ++ js " powershell.exe -noexit") /\
  createTerminalCommand darwin settings folderPath
    = Right (js "open -a Terminal " ++ quoted folderPath) /\
  createTerminalCommand linux settings folderPath
    = Right (js "gnome-terminal --working-directory=" ++ quoted folderPath).
Proof.
  intros H. rewrite !createTerminalCommand_inferred by assumption.
  repeat split.
Qed.

(** What [main.ts] builds with no custom binary configured. On each of
    the three recognized platforms and for every folder path,
    [createTerminalCommand] succeeds; the command holds the folder path
    between one pair of double quotes, with no other double quote before
    or after it, and holds the binary name inferred for the platform:
    [powershell.exe] on Windows, [Terminal] on macOS, [gnome-terminal] on
    Linux. *)
Theorem createTerminalCommand_inferred_quotes_path (settings : PluginSettings)
    (folderPath : jsstring) :
  terminalBin settings = None ->
  (exists out, createTerminalCommand win32 settings folderPath = Right out /\
     QuotesPathOnce folderPath out /\ Substring (js "powershell.exe") out) /\
  (exists out, createTerminalCommand darwin settings folderPath = Right out /\
     QuotesPathOnce folderPath out /\ Substring (js "Terminal") out) /\
  (exists out, createTerminalCommand linux settings folderPath = Right out /\
     QuotesPathOnce folderPath out /\ Substring (js "gnome-terminal") out).
Proof.
  intros H.
  destruct (createTerminalCommand_inferred_shapes settings folderPath H)
    as (Hw & Hd & Hl).
  rewrite Hw, Hd, Hl. repeat split.
  - eexists; split; [reflexivity|]. split.
    + exists (js "start /d "), (js " powershell.exe -noexit").
      split; [unfold quoted; now rewrite <- ?app_assoc|].
      split; literal_lacks.
    + occurs_between (js "start /d " ++ quoted folderPath ++ js " ") (js " -noexit").
  - eexists; split; [reflexivity|]. split.
    + exists (js "open -a Terminal "), [].
      split; [reflexivity|]. split; literal_lacks.
    + occurs_between (js "open -a ") (js " " ++ quoted folderPath).
  - eexists; split; [reflexivity|]. split.
    + exists (js "gnome-terminal --working-directory="), [].
      split; [reflexivity|]. split; literal_lacks.
    + occurs_between (@nil codeUnit) (js " --working-directory=" ++ quoted folderPath).
Qed.

Lemma createTerminalCommand_inferred_quotes_path_witness :
  exists out,
    createTerminalCommand linux DEFAULT_SETTINGS (js "/home/user/My Notes") = Right out /\
    QuotesPathOnce (js "/home/user/My Notes") out /\
    Substring (js "gnome-terminal") out.
Proof.
  apply (proj2 (proj2 (createTerminalCommand_inferred_quotes_path
                         DEFAULT_SETTINGS (js "/home/user/My Notes") eq_refl))).
Defined.

(** [QuotesPathOnce] counts: the command has two double quotes more than
    the folder path. *)
Lemma QuotesPathOnce_count (folderPath out : jsstring) :
  QuotesPathOnce folderPath out ->
  count_occ N.eq_dec out DQUOTE = 2 + count_occ N.eq_dec folderPath DQUOTE.
Proof.
  intros (pre & post & -> & Hpre & Hpost).
  rewrite !count_occ_app.
  apply (count_occ_not_In N.eq_dec) in Hpre, Hpost.
  unfold jsstring, codeUnit in *. rewrite Hpre, Hpost. simpl. lia.
Qed.

(* ================================================================== *)
(** ** The command builder with a custom terminal *)
(* ================================================================== *)

Lemma blank_test (s : jsstring) : strictEq (trim s) [] = true <-> blank s.
Proof. apply strictEq_eq. Qed.

Lemma not_blank_test (s : jsstring) : strictEq (trim s) [] = false <-> ~ blank s.
Proof. apply strictEq_neq. Qed.

Lemma noTemplate_test (t : option jsstring) :
  noTemplate t -> strictEq (trim (getOrElse (fun _ => []) t)) [] = true.
Proof. destruct t as [s|]; simpl; intros H; [now apply blank_test | reflexivity]. Qed.

(** The custom template is used as soon as it is not blank, whatever the
    platform. *)
Lemma customCommand_template (platform : jsstring) (settings : PluginSettings)
    (folderPath customTerminal template : jsstring) :
  terminalArgs settings = Some template ->
  ~ blank template ->
  customCommand platform settings folderPath customTerminal
  = Right (quoted customTerminal ++ js " "
             ++ replaceGlobal pathPlaceholder (quoted folderPath) template).
Proof.
  intros Ht Hb. unfold customCommand, pipe. rewrite Ht. simpl getOrElse.
  apply not_blank_test in Hb. now rewrite Hb.
Qed.

(** Without a template the platform decides, and the template, absent or
    blank, plays no part. *)
Lemma customCommand_noTemplate (platform : jsstring) (settings : PluginSettings)
    (folderPath customTerminal : jsstring) :
  noTemplate (terminalArgs settings) ->
  customCommand platform settings folderPath customTerminal
  = if strictEq platform win32 then
      Right (js "start /d " ++ quoted folderPath ++ js " " ++ quoted customTerminal)
    else if strictEq platform darwin then
      Right (js "open -a " ++ quoted customTerminal ++ js " " ++ quoted folderPath)
    else if strictEq platform linux then
      Right (quoted customTerminal ++ js " --working-directory=" ++ quoted folderPath)
    else
      Left (js "Unsupported platform").
Proof.
  intros H. unfold customCommand, pipe.
  now rewrite (noTemplate_test _ H).
Qed.

(* ================================================================== *)
(** ** Unsupported platforms *)
(* ================================================================== *)

(** C3, as stated, fails: on [freebsd] with a custom binary and a custom
    argument template the command is built and no error is returned. *)
Lemma createTerminalCommand_freebsd_with_template_succeeds :
  createTerminalCommand (js "freebsd")
    {| terminalBin := Some (js "xterm"); terminalArgs := Some (js "-e {path}") |}
    (js "/vault")
  = Right (quoted (js "xterm") ++ js " -e " ++ quoted (js "/vault")) /\
  ~ isUnsupportedPlatform
      (createTerminalCommand (js "freebsd")
         {| terminalBin := Some (js "xterm"); terminalArgs := Some (js "-e {path}") |}
         (js "/vault")).
Proof.
  split; [reflexivity|].
  intros (message & E & _). vm_compute in E. discriminate E.
Qed.

(** C3, amended. On a platform identifier outside the three recognized
    ones, [inferTerminalCommand] fails with the unsupported-platform error
    that carries the identifier. [createTerminalCommand] returns that same
    error when no custom binary is configured, and an unsupported-platform
    error when a custom binary is configured and the argument template is
    absent or blank. With a custom binary and a template that is not blank
    it succeeds with the user's command: the platform is not consulted. *)
Theorem createTerminalCommand_unrecognized (platform : jsstring)
    (settings : PluginSettings) (folderPath : jsstring) :
  ~ recognized platform ->
  inferTerminalCommand platform = Left (unsupportedPlatform platform) /\
  match terminalBin settings with
  | None =>
      createTerminalCommand platform settings folderPath
      = Left (unsupportedPlatform platform)
  | Some customTerminal =>
      (noTemplate (terminalArgs settings) ->
         isUnsupportedPlatform (createTerminalCommand platform settings folderPath)) /\
      (forall template,
         terminalArgs settings = Some template -> ~ blank template ->
         createTerminalCommand platform settings folderPath
         = Right (quoted customTerminal ++ js " "
                    ++ replaceGlobal pathPlaceholder (quoted folderPath) template))
  end.
Proof.
  intros H. destruct (unrecognized_switch platform H) as (Hw & Hd & Hl).
  assert (Hinfer : inferTerminalCommand platform = Left (unsupportedPlatform platform)).
  { unfold inferTerminalCommand. now rewrite Hw, Hd, Hl. }
  split; [exact Hinfer|].
  destruct (terminalBin settings) as [customTerminal|] eqn:Hbin.
  - rewrite (createTerminalCommand_custom platform settings folderPath customTerminal Hbin).
    split.
    + intros Hnt. rewrite customCommand_noTemplate by assumption.
      rewrite Hw, Hd, Hl.
      exists (js "Unsupported platform"). split; reflexivity.
    + intros template Ht Hb. now apply customCommand_template.
  - rewrite createTerminalCommand_inferred by assumption.
    now rewrite Hinfer.
Qed.

Lemma createTerminalCommand_unrecognized_witness :
  inferTerminalCommand (js "freebsd") = Left (js "Unsupported platform: freebsd") /\
  createTerminalCommand (js "freebsd") DEFAULT_SETTINGS (js "/vault")
  = Left (js "Unsupported platform: freebsd").
Proof.
  apply (createTerminalCommand_unrecognized (js "freebsd") DEFAULT_SETTINGS (js "/vault")).
  intros [E|[E|E]]; vm_compute in E; discriminate E.
Defined.

(** The earlier copy has no template: there every unrecognized platform
    fails, with the identifier only when no custom binary is set. *)
Lemma earlier_copy_unrecognized_fails (platform : jsstring)
    (settings : Part000.PluginSettings) (folderPath : jsstring) :
  ~ recognized platform ->
  Part000.createTerminalCommand platform settings folderPath
  = match Part000.terminalBin settings with
    | None => Left (unsupportedPlatform platform)
    | Some _ => Left (js "Unsupported platform")
    end.
Proof.
  intros H. destruct (unrecognized_switch platform H) as (Hw & Hd & Hl).
  unfold Part000.createTerminalCommand, pipe.
  destruct (Part000.terminalBin settings); simpl.
  - unfold Part000.customCommand. now rewrite Hw, Hd, Hl.
  - unfold Part000.inferTerminalCommand. now rewrite Hw, Hd, Hl.
Qed.

(* ================================================================== *)
(** ** The custom argument template *)
(* ================================================================== *)

(** With a custom binary and a template that is not blank the command
    starts with the quoted binary and a space. *)
Lemma createTerminalCommand_template_starts_with_binary (platform : jsstring)
    (settings : PluginSettings) (folderPath customTerminal template : jsstring) :
  terminalBin settings = Some customTerminal ->
  terminalArgs settings = Some template ->
  ~ blank template ->
  exists rest,
    createTerminalCommand platform settings folderPath
    = Right (quoted customTerminal ++ js " " ++ rest).
Proof.
  intros Hbin Ht Hb.
  rewrite (createTerminalCommand_custom platform settings folderPath customTerminal Hbin).
  rewrite (customCommand_template platform settings folderPath customTerminal template Ht Hb).
  eexists; reflexivity.
Qed.

(** When the folder path holds no dollar sign, every occurrence of
    [{path}] in the template is replaced by the quoted folder path: the
    pieces of the template between the placeholders come out joined by the
    quoted path, after the quoted binary and a space. *)
Lemma createTerminalCommand_template_substitutes (platform : jsstring)
    (settings : PluginSettings) (folderPath customTerminal template : jsstring)
    (pieces : list jsstring) :
  terminalBin settings = Some customTerminal ->
  terminalArgs settings = Some template ->
  ~ blank template ->
  ~ In DOLLAR folderPath ->
  cutAt pathPlaceholder template pieces ->
  createTerminalCommand platform settings folderPath
  = Right (quoted customTerminal ++ js " "
             ++ substituteAll (quoted folderPath) pieces).
Proof.
  intros Hbin Ht Hb Hd (Hne & -> & Hall).
  rewrite (createTerminalCommand_custom platform settings folderPath customTerminal Hbin).
  rewrite (customCommand_template platform settings folderPath customTerminal _ Ht Hb).
  unfold replaceGlobal, substituteAll.
  rewrite replaceScan_pieces; auto using quoted_no_dollar.
Qed.

(** C4 at a folder path with two dollar signs. The template [-e {path}]
    is cut into the pieces [-e ] and the empty string, so replacing the
    placeholder by the quoted folder path gives [-e "/notes/Cash $$"];
    the source builds [-e "/notes/Cash $"]: the replacement string of
    [replace] is a template in which [$$] stands for one dollar sign. *)
Theorem createTerminalCommand_template_dollar :
  let settings := {| terminalBin := Some (js "xterm");
                     terminalArgs := Some (js "-e {path}") |} in
  let folderPath := js "/notes/Cash $$" in
  cutAt pathPlaceholder (js "-e {path}") [js "-e "; []] /\
  ~ blank (js "-e {path}") /\
  createTerminalCommand linux settings folderPath
  = Right (quoted (js "xterm") ++ js " -e " ++ quoted (js "/notes/Cash $")) /\
  createTerminalCommand linux settings folderPath
  <> Right (quoted (js "xterm") ++ js " "
              ++ substituteAll (quoted folderPath) [js "-e "; []]).
Proof.
  cbv zeta. repeat split.
  - discriminate.
  - repeat constructor.
  - intros E; vm_compute in E; discriminate E.
  - intros E; vm_compute in E; discriminate E.
Qed.

(** The other three patterns of a replacement template, in a folder
    path: the match, the text before it and the text after it. *)
Lemma createTerminalCommand_template_patterns :
  let settings := {| terminalBin := Some (js "xterm");
                     terminalArgs := Some (js "-e {path} -T notes") |} in
  createTerminalCommand linux settings (js "/a$&b")
  = Right (quoted (js "xterm") ++ js " -e " ++ quoted (js "/a{path}b") ++ js " -T notes") /\
  createTerminalCommand linux settings ([47; 97; DOLLAR; BACKTICK; 98]%N)
  = Right (quoted (js "xterm") ++ js " -e " ++ quoted (js "/a-e b") ++ js " -T notes") /\
  createTerminalCommand linux settings ([47; 97; DOLLAR; APOSTROPHE; 98]%N)
  = Right (quoted (js "xterm") ++ js " -e " ++ quoted (js "/a -T notesb") ++ js " -T notes").
Proof. repeat split. Qed.

(** C8. On macOS with the custom binary [iTerm], the template
    [-e "ls {path}"] and the folder path [/home/user/My Notes] the command
    is ["iTerm" -e "ls "/home/user/My Notes""]: the quotes of the template
    around the substituted path are left as they are. *)
Theorem createTerminalCommand_iTerm_scenario :
  createTerminalCommand darwin
    {| terminalBin := Some (js "iTerm");
       terminalArgs := Some (js "-e " ++ quoted (js "ls {path}")) |}
    (js "/home/user/My Notes")
  = Right (quoted (js "iTerm") ++ js " -e " ++ [DQUOTE] ++ js "ls "
             ++ quoted (js "/home/user/My Notes") ++ [DQUOTE]).
Proof. reflexivity. Qed.

(** C9, as stated, fails: a template without [{path}] may spell the
    folder path out, and then the command holds it. *)
Lemma createTerminalCommand_template_spells_path :
  let settings := {| terminalBin := Some (js "xterm");
                     terminalArgs := Some (js "--workdir /tmp") |} in
  includes pathPlaceholder (js "--workdir /tmp") = false /\
  ~ blank (js "--workdir /tmp") /\
  createTerminalCommand linux settings (js "/tmp")
  = Right (quoted (js "xterm") ++ js " --workdir /tmp") /\
  Substring (js "/tmp") (quoted (js "xterm") ++ js " --workdir /tmp").
Proof.
  cbv zeta. repeat split.
  - intros E; vm_compute in E; discriminate E.
  - occurs_between (quoted (js "xterm") ++ js " --workdir ") (@nil codeUnit).
Qed.

(** C9, amended. With a custom binary and a template that is not blank
    and holds no [{path}], the command is the binary between double
    quotes, a space and the template unchanged, on every platform and for
    every folder path: it is the same command for any two folder paths. *)
Theorem createTerminalCommand_template_without_placeholder (platform : jsstring)
    (settings : PluginSettings) (folderPath customTerminal template : jsstring) :
  terminalBin settings = Some customTerminal ->
  terminalArgs settings = Some template ->
  ~ blank template ->
  includes pathPlaceholder template = false ->
  createTerminalCommand platform settings folderPath
  = Right ([DQUOTE] ++ customTerminal ++ [DQUOTE] ++ js " " ++ template) /\
  forall otherPath,
    createTerminalCommand platform settings otherPath
    = createTerminalCommand platform settings folderPath.
Proof.
  intros Hbin Ht Hb Hp.
  assert (Hany : forall path,
             createTerminalCommand platform settings path
             = Right ([DQUOTE] ++ customTerminal ++ [DQUOTE] ++ js " " ++ template)).
  { intros path.
    rewrite (createTerminalCommand_custom platform settings path customTerminal Hbin).
    rewrite (customCommand_template platform settings path customTerminal template Ht Hb).
    rewrite replaceGlobal_absent by assumption.
    unfold quoted. now rewrite <- ?app_assoc. }
  split; [apply Hany|]. intros otherPath. now rewrite !Hany.
Qed.

Lemma createTerminalCommand_template_without_placeholder_witness :
  createTerminalCommand linux
    {| terminalBin := Some (js "xterm"); terminalArgs := Some (js "--workdir /tmp") |}
    (js "/home/user/My Notes")
  = Right ([DQUOTE] ++ js "xterm" ++ [DQUOTE] ++ js " --workdir /tmp").
Proof.
  apply (createTerminalCommand_template_without_placeholder linux
           {| terminalBin := Some (js "xterm"); terminalArgs := Some (js "--workdir /tmp") |}
           (js "/home/user/My Notes") (js "xterm") (js "--workdir /tmp")).
  - reflexivity.
  - reflexivity.
  - intros E; vm_compute in E; discriminate E.
  - reflexivity.
Defined.

(* ================================================================== *)
(** ** Blank settings *)
(* ================================================================== *)

(** C5, as stated, fails: [createTerminalCommand] does not trim the
    binary. A binary that is present and empty, or one space, is quoted
    and used as the custom terminal. *)
Lemma createTerminalCommand_blank_binary_is_custom :
  createTerminalCommand linux
    {| terminalBin := Some []; terminalArgs := None |} (js "/vault")
  = Right (quoted [] ++ js " --working-directory=" ++ quoted (js "/vault")) /\
  createTerminalCommand linux
    {| terminalBin := Some (js " "); terminalArgs := None |} (js "/vault")
  = Right (quoted (js " ") ++ js " --working-directory=" ++ quoted (js "/vault")) /\
  createTerminalCommand linux
    {| terminalBin := None; terminalArgs := None |} (js "/vault")
  = Right (js "gnome-terminal --working-directory=" ++ quoted (js "/vault")) /\
  createTerminalCommand linux
    {| terminalBin := Some []; terminalArgs := None |} (js "/vault")
  <> createTerminalCommand linux
       {| terminalBin := None; terminalArgs := None |} (js "/vault").
Proof.
  repeat split. intros E; vm_compute in E; discriminate E.
Qed.

(** C5, amended. The change handler of the settings tab stores an empty
    or whitespace-only binary text as absent; on the settings it leaves,
    on every platform and for every folder path, [createTerminalCommand]
    falls back to platform inference and returns what it returns with the
    binary absent. A text that is not blank is stored trimmed. *)
Theorem onChangeTerminalBin_blank_is_absent (platform : jsstring)
    (settings : PluginSettings) (value folderPath : jsstring) :
  (blank value ->
     terminalBin (onChangeTerminalBin value settings) = None /\
     createTerminalCommand platform (onChangeTerminalBin value settings) folderPath
     = createTerminalCommand platform
         {| terminalBin := None; terminalArgs := terminalArgs settings |} folderPath /\
     createTerminalCommand platform (onChangeTerminalBin value settings) folderPath
     = eitherFold (fun error => Left error) (inferredCommand platform folderPath)
         (inferTerminalCommand platform)) /\
  (~ blank value ->
     terminalBin (onChangeTerminalBin value settings) = Some (trim value)).
Proof.
  split.
  - intros H. apply blank_test in H.
    assert (Hs : onChangeTerminalBin value settings
                 = {| terminalBin := None; terminalArgs := terminalArgs settings |}).
    { unfold onChangeTerminalBin. now rewrite H. }
    rewrite Hs. repeat split.
  - intros H. apply not_blank_test in H.
    unfold onChangeTerminalBin. simpl. now rewrite H.
Qed.

Lemma onChangeTerminalBin_blank_is_absent_witness :
  createTerminalCommand linux
    (onChangeTerminalBin (js "   ")
       {| terminalBin := Some (js "xterm"); terminalArgs := None |})
    (js "/vault")
  = createTerminalCommand linux
      {| terminalBin := None; terminalArgs := None |} (js "/vault") /\
  terminalBin (onChangeTerminalBin (js " kitty ") DEFAULT_SETTINGS) = Some (js "kitty").
Proof.
  split.
  - apply (proj1 (onChangeTerminalBin_blank_is_absent linux
             {| terminalBin := Some (js "xterm"); terminalArgs := None |}
             (js "   ") (js "/vault"))).
    reflexivity.
  - apply (proj2 (onChangeTerminalBin_blank_is_absent linux DEFAULT_SETTINGS
             (js " kitty ") (js "/vault"))).
    intros E; vm_compute in E; discriminate E.
Defined.

(** The handler of the argument template normalises in the same way. *)
Lemma onChangeTerminalArgs_blank_is_absent (settings : PluginSettings)
    (value : jsstring) :
  terminalBin (onChangeTerminalArgs value settings) = terminalBin settings /\
  (blank value -> terminalArgs (onChangeTerminalArgs value settings) = None) /\
  (~ blank value ->
     terminalArgs (onChangeTerminalArgs value settings) = Some (trim value)).
Proof.
  unfold onChangeTerminalArgs; simpl. repeat split.
  - intros H. apply blank_test in H. now rewrite H.
  - intros H. apply not_blank_test in H. now rewrite H.
Qed.

(** What is blank for [trim]: the strings of white space. *)
Lemma blank_whitespace (s : jsstring) :
  blank s <-> Forall (fun c => isWhiteSpace c = true) s.
Proof.
  unfold blank. rewrite trim_blank, forallb_forall, Forall_forall. reflexivity.
Qed.

(* ================================================================== *)
(** ** The platform-default shape with a custom binary *)
(* ================================================================== *)

(** C6, as stated, fails on Windows: the default shape ends with the
    default argument [-noexit], which the command for a custom binary
    leaves out. *)
Lemma createTerminalCommand_win32_custom_drops_noexit :
  let settings := {| terminalBin := Some (js "wt.exe"); terminalArgs := None |} in
  createTerminalCommand win32 settings (js "C:/vault")
  = Right (js "start /d " ++ quoted (js "C:/vault") ++ js " " ++ quoted (js "wt.exe")) /\
  defaultShapeWith win32 (js "C:/vault") (js "wt.exe")
  = Right (js "start /d " ++ quoted (js "C:/vault") ++ js " " ++ quoted (js "wt.exe")
             ++ js " -noexit") /\
  createTerminalCommand win32 settings (js "C:/vault")
  <> defaultShapeWith win32 (js "C:/vault") (js "wt.exe").
Proof.
  cbv zeta. repeat split. intros E; vm_compute in E; discriminate E.
Qed.

(** C6, amended. With a custom binary B and a template that is absent,
    empty or whitespace-only, the command on macOS and on Linux is the
    platform-default shape with B, quoted, in place of the inferred
    binary; on Windows it is [start /d], the quoted folder path and the
    quoted B. On every platform the result is the same for an absent and
    for a blank template. *)
Theorem createTerminalCommand_custom_default_shape (settings : PluginSettings)
    (folderPath customTerminal : jsstring) :
  terminalBin settings = Some customTerminal ->
  noTemplate (terminalArgs settings) ->
  createTerminalCommand win32 settings folderPath
  = Right (js "start /d " ++ quoted folderPath ++ js " " ++ quoted customTerminal) /\
  createTerminalCommand darwin settings folderPath
  = defaultShapeWith darwin folderPath customTerminal /\
  createTerminalCommand linux settings folderPath
  = defaultShapeWith linux folderPath customTerminal /\
  forall platform,
    createTerminalCommand platform settings folderPath
    = createTerminalCommand platform
        {| terminalBin := Some customTerminal; terminalArgs := None |} folderPath.
Proof.
  intros Hbin Hnt.
  assert (Hc : forall platform,
             createTerminalCommand platform settings folderPath
             = customCommand platform
                 {| terminalBin := Some customTerminal; terminalArgs := None |}
                 folderPath customTerminal).
  { intros platform.
    rewrite (createTerminalCommand_custom platform settings folderPath customTerminal Hbin).
    rewrite !customCommand_noTemplate; [reflexivity | exact I | exact Hnt]. }
  repeat split.
  - rewrite Hc. reflexivity.
  - rewrite Hc. reflexivity.
  - rewrite Hc. reflexivity.
  - intros platform. rewrite Hc. reflexivity.
Qed.

Lemma createTerminalCommand_custom_default_shape_witness :
  createTerminalCommand linux
    {| terminalBin := Some (js "kitty"); terminalArgs := Some (js "  ") |} (js "/vault")
  = defaultShapeWith linux (js "/vault") (js "kitty").
Proof.
  apply (createTerminalCommand_custom_default_shape
           {| terminalBin := Some (js "kitty"); terminalArgs := Some (js "  ") |}
           (js "/vault") (js "kitty")); reflexivity.
Defined.

(* ================================================================== *)
(** ** Scenarios and the quoted binary *)
(* ================================================================== *)

(** C7. On Linux with no custom binary and the folder path
    [/home/user/My Notes] the command is
    [gnome-terminal --working-directory="/home/user/My Notes"]. *)
Theorem createTerminalCommand_linux_scenario (template : option jsstring) :
  createTerminalCommand linux
    {| terminalBin := None; terminalArgs := template |} (js "/home/user/My Notes")
  = Right (js "gnome-terminal --working-directory=" ++ [DQUOTE]
             ++ js "/home/user/My Notes" ++ [DQUOTE]).
Proof. reflexivity. Qed.

(** The earlier copy builds the same command on Linux. *)
Lemma earlier_copy_linux_scenario :
  Part000.createTerminalCommand linux Part000.DEFAULT_SETTINGS (js "/home/user/My Notes")
  = Right (js "gnome-terminal --working-directory=" ++ [DQUOTE]
             ++ js "/home/user/My Notes" ++ [DQUOTE]).
Proof. reflexivity. Qed.

(** C10. Whenever a custom binary is configured and
    [createTerminalCommand] succeeds, the command holds the binary between
    double quotes: with a custom template and with the platform-default
    shape, on every platform on which the command is built. *)
Theorem createTerminalCommand_quotes_custom_binary (platform : jsstring)
    (settings : PluginSettings) (folderPath customTerminal out : jsstring) :
  terminalBin settings = Some customTerminal ->
  createTerminalCommand platform settings folderPath = Right out ->
  Substring ([DQUOTE] ++ customTerminal ++ [DQUOTE]) out.
Proof.
  intros Hbin.
  rewrite (createTerminalCommand_custom platform settings folderPath customTerminal Hbin).
  unfold customCommand.
  change ([DQUOTE] ++ customTerminal ++ [DQUOTE]) with (quoted customTerminal).
  destruct (negb _).
  - intros E; injection E as <-. now exists [], (js " " ++
      replaceGlobal pathPlaceholder (quoted folderPath)
        (pipe (terminalArgs settings) (getOrElse (fun _ => [])))).
  - destruct (strictEq platform win32);
      [|destruct (strictEq platform darwin);
        [|destruct (strictEq platform linux); [|discriminate]]];
      intros E; injection E as <-.
    + occurs_between (js "start /d " ++ quoted folderPath ++ js " ") (@nil codeUnit).
    + now exists (js "open -a "), (js " " ++ quoted folderPath).
    + now exists [], (js " --working-directory=" ++ quoted folderPath).
Qed.

Lemma createTerminalCommand_quotes_custom_binary_witness :
  Substring ([DQUOTE] ++ js "wt.exe" ++ [DQUOTE])
    (js "start /d " ++ [DQUOTE] ++ js "C:/vault" ++ [DQUOTE] ++ js " "
       ++ [DQUOTE] ++ js "wt.exe" ++ [DQUOTE]).
Proof.
  apply (createTerminalCommand_quotes_custom_binary win32
           {| terminalBin := Some (js "wt.exe"); terminalArgs := None |}
           (js "C:/vault") (js "wt.exe")); reflexivity.
Defined.

(** The earlier copy quotes the custom binary as well. *)
Lemma earlier_copy_quotes_binary (platform : jsstring)
    (settings : Part000.PluginSettings) (folderPath customTerminal out : jsstring) :
  Part000.terminalBin settings = Some customTerminal ->
  Part000.createTerminalCommand platform settings folderPath = Right out ->
  Substring ([DQUOTE] ++ customTerminal ++ [DQUOTE]) out.
Proof.
  intros Hbin. unfold Part000.createTerminalCommand, pipe. rewrite Hbin. simpl.
  change (DQUOTE :: customTerminal ++ [DQUOTE]) with (quoted customTerminal).
  unfold Part000.customCommand.
  destruct (strictEq platform win32);
    [|destruct (strictEq platform darwin);
      [|destruct (strictEq platform linux); [|discriminate]]];
    intros E; injection E as <-.
  - exists [], []. now rewrite app_nil_r.
  - now exists (js "open -a "), (js " " ++ quoted folderPath).
  - now exists [], (js " --working-directory=" ++ quoted folderPath).
Qed.

(** Where the earlier copy differs from C2: on Windows it wraps the folder
    path in escaped quotes inside a quoted [cd /d] argument; on macOS and
    on Linux it builds the commands of [main.ts]. *)
Lemma earlier_copy_inferred_shapes (folderPath : jsstring) :
  Part000.createTerminalCommand win32 Part000.DEFAULT_SETTINGS folderPath
  = Right (js "start powershell.exe  " ++ [DQUOTE] ++ js "cd /d "
             ++ [BACKSLASH; DQUOTE] ++ folderPath ++ [BACKSLASH; DQUOTE; DQUOTE]) /\
  Part000.createTerminalCommand darwin Part000.DEFAULT_SETTINGS folderPath
  = createTerminalCommand darwin DEFAULT_SETTINGS folderPath /\
  Part000.createTerminalCommand linux Part000.DEFAULT_SETTINGS folderPath
  = createTerminalCommand linux DEFAULT_SETTINGS folderPath.
Proof. repeat split. Qed.

(** C2, on the earlier copy. On Windows with no custom binary it does not
    hold the folder path between a pair of double quotes: it writes a
    backslash before each of the two quotes, inside a quoted [cd /d]
    argument. With the folder path [C:/vault] the command is
    [start powershell.exe  "cd /d \"C:/vault\""], in which the path is
    followed by a backslash; [main.ts] builds [start /d "C:/vault"
    powershell.exe -noexit]. *)
Theorem earlier_copy_win32_escapes_path :
  (forall folderPath,
     Part000.createTerminalCommand win32 Part000.DEFAULT_SETTINGS folderPath
     = Right (js "start powershell.exe  " ++ [DQUOTE] ++ js "cd /d "
                ++ [BACKSLASH; DQUOTE] ++ folderPath ++ [BACKSLASH; DQUOTE; DQUOTE])) /\
  ~ Substring ([DQUOTE] ++ js "C:/vault" ++ [DQUOTE])
      (js "start powershell.exe  " ++ [DQUOTE] ++ js "cd /d "
         ++ [BACKSLASH; DQUOTE] ++ js "C:/vault" ++ [BACKSLASH; DQUOTE; DQUOTE]) /\
  createTerminalCommand win32 DEFAULT_SETTINGS (js "C:/vault")
  = Right (js "start /d " ++ [DQUOTE] ++ js "C:/vault" ++ [DQUOTE]
             ++ js " powershell.exe -noexit").
Proof.
  split; [reflexivity|]. split; [|reflexivity].
  intros H. apply includes_Substring in H. vm_compute in H. discriminate H.
Qed.

(* ================================================================== *)
(** ** More on the command builder *)
(* ================================================================== *)

Lemma Right_inj (E A : Type) (a b : A) : @Right E A a = Right b -> a = b.
Proof. intros H. now injection H. Qed.

Lemma recognized_or_not (platform : jsstring) :
  recognized platform \/ ~ recognized platform.
Proof.
  unfold recognized.
  destruct (strictEq platform win32) eqn:Hw; [apply strictEq_eq in Hw; auto|].
  destruct (strictEq platform darwin) eqn:Hd; [apply strictEq_eq in Hd; auto|].
  destruct (strictEq platform linux) eqn:Hl; [apply strictEq_eq in Hl; auto|].
  apply strictEq_neq in Hw, Hd, Hl. right. tauto.
Qed.

Lemma template_or_not (t : option jsstring) :
  noTemplate t \/ exists template, t = Some template /\ ~ blank template.
Proof.
  destruct t as [s|]; [|left; exact I].
  destruct (strictEq (trim s) []) eqn:E.
  - left. now apply blank_test.
  - right. exists s. split; [reflexivity | now apply not_blank_test].
Qed.

(** The commands built without a template, on a recognized platform. *)
Lemma createTerminalCommand_custom_shapes (settings : PluginSettings)
    (folderPath customTerminal : jsstring) :
  terminalBin settings = Some customTerminal ->
  noTemplate (terminalArgs settings) ->
  createTerminalCommand win32 settings folderPath
    = Right (js "start /d " ++ quoted folderPath ++ js " " ++ quoted customTerminal) /\
  createTerminalCommand darwin settings folderPath
    = Right (js "open -a " ++ quoted customTerminal ++ js " " ++ quoted folderPath) /\
  createTerminalCommand linux settings folderPath
    = Right (quoted customTerminal ++ js " --working-directory=" ++ quoted folderPath).
Proof.
  intros Hbin Hnt.
  rewrite !(createTerminalCommand_custom _ settings folderPath customTerminal Hbin).
  rewrite !customCommand_noTemplate by assumption.
  repeat split.
Qed.

Lemma unrecognized_default_fails (platform : jsstring)
    (settings : PluginSettings) (folderPath : jsstring) :
  ~ recognized platform ->
  terminalBin settings = None \/ noTemplate (terminalArgs settings) ->
  exists message, createTerminalCommand platform settings folderPath = Left message.
Proof.
  intros Hn Hor.
  destruct (unrecognized_switch platform Hn) as (Hw & Hd & Hl).
  destruct (terminalBin settings) as [b|] eqn:Hbin.
  - destruct Hor as [Hor|Hnt]; [discriminate Hor|].
    rewrite (createTerminalCommand_custom platform settings folderPath b Hbin).
    rewrite customCommand_noTemplate by assumption.
    rewrite Hw, Hd, Hl. eexists; reflexivity.
  - rewrite createTerminalCommand_inferred by assumption.
    unfold inferTerminalCommand. rewrite Hw, Hd, Hl. eexists; reflexivity.
Qed.

(** [createTerminalCommand] fails exactly when the platform is not one of
    the three and no custom template takes over: no custom binary is set,
    or the template is absent or blank. *)
Theorem createTerminalCommand_fails_exactly (platform : jsstring)
    (settings : PluginSettings) (folderPath : jsstring) :
  (exists message, createTerminalCommand platform settings folderPath = Left message)
  <->
  (~ recognized platform /\
   (terminalBin settings = None \/ noTemplate (terminalArgs settings))).
Proof.
  split.
  - intros (msg & E).
    destruct (recognized_or_not platform) as [Hr|Hn].
    + exfalso.
      destruct (terminalBin settings) as [b|] eqn:Hbin.
      * destruct (template_or_not (terminalArgs settings)) as [Hnt|(t & Ht & Hb)].
        -- destruct (createTerminalCommand_custom_shapes settings folderPath b Hbin Hnt)
             as (Hw & Hd & Hl).
           destruct Hr as [ -> | [ -> | -> ] ]; congruence.
        -- rewrite (createTerminalCommand_custom platform settings folderPath b Hbin) in E.
           rewrite (customCommand_template platform settings folderPath b t Ht Hb) in E.
           discriminate E.
      * destruct (createTerminalCommand_inferred_shapes settings folderPath Hbin)
          as (Hw & Hd & Hl).
        destruct Hr as [ -> | [ -> | -> ] ]; congruence.
    + split; [exact Hn|].
      destruct (terminalBin settings) as [b|] eqn:Hbin; [|now left].
      right.
      destruct (template_or_not (terminalArgs settings)) as [Hnt|(t & Ht & Hb)];
        [exact Hnt|].
      rewrite (createTerminalCommand_custom platform settings folderPath b Hbin) in E.
      rewrite (customCommand_template platform settings folderPath b t Ht Hb) in E.
      discriminate E.
  - intros (Hn & Hor). now apply unrecognized_default_fails.
Qed.

(** Without a custom binary the argument template plays no part. *)
Theorem createTerminalCommand_ignores_template_without_binary (platform : jsstring)
    (settings : PluginSettings) (folderPath : jsstring) :
  terminalBin settings = None ->
  createTerminalCommand platform settings folderPath
  = createTerminalCommand platform DEFAULT_SETTINGS folderPath.
Proof.
  intros H. rewrite !createTerminalCommand_inferred; auto.
Qed.

Lemma createTerminalCommand_ignores_template_without_binary_witness :
  createTerminalCommand linux
    {| terminalBin := None; terminalArgs := Some (js "--title notes {path}") |}
    (js "/vault")
  = createTerminalCommand linux DEFAULT_SETTINGS (js "/vault").
Proof.
  apply (createTerminalCommand_ignores_template_without_binary linux
           {| terminalBin := None; terminalArgs := Some (js "--title notes {path}") |}
           (js "/vault")).
  reflexivity.
Defined.

(** Every command built without a custom template, inferred or with a
    custom binary, holds the folder path between two double quotes. *)
Theorem createTerminalCommand_default_shape_quotes_path (platform : jsstring)
    (settings : PluginSettings) (folderPath out : jsstring) :
  terminalBin settings = None \/ noTemplate (terminalArgs settings) ->
  createTerminalCommand platform settings folderPath = Right out ->
  Substring ([DQUOTE] ++ folderPath ++ [DQUOTE]) out.
Proof.
  intros Hor E.
  change ([DQUOTE] ++ folderPath ++ [DQUOTE]) with (quoted folderPath).
  destruct (recognized_or_not platform) as [Hr|Hn].
  - destruct (terminalBin settings) as [b|] eqn:Hbin.
    + destruct Hor as [Hor|Hnt]; [discriminate Hor|].
      destruct (createTerminalCommand_custom_shapes settings folderPath b Hbin Hnt)
        as (Hw & Hd & Hl).
      destruct Hr as [ -> | [ -> | -> ] ].
      * rewrite Hw in E. injection E as <-.
        now exists (js "start /d "), (js " " ++ quoted b).
      * rewrite Hd in E. injection E as <-.
        occurs_between (js "open -a " ++ quoted b ++ js " ") (@nil codeUnit).
      * rewrite Hl in E. injection E as <-.
        occurs_between (quoted b ++ js " --working-directory=") (@nil codeUnit).
    + destruct (createTerminalCommand_inferred_shapes settings folderPath Hbin)
        as (Hw & Hd & Hl).
      destruct Hr as [ -> | [ -> | -> ] ].
      * rewrite Hw in E. injection E as <-.
        now exists (js "start /d "), (js " powershell.exe -noexit").
      * rewrite Hd in E. injection E as <-.
        occurs_between (js "open -a Terminal ") (@nil codeUnit).
      * rewrite Hl in E. injection E as <-.
        occurs_between (js "gnome-terminal --working-directory=") (@nil codeUnit).
  - exfalso.
    assert (Hf : exists message,
               createTerminalCommand platform settings folderPath = Left message).
    { now apply unrecognized_default_fails. }
    destruct Hf as (msg & Hf). congruence.
Qed.

Lemma createTerminalCommand_default_shape_quotes_path_witness :
  Substring ([DQUOTE] ++ js "C:/vault" ++ [DQUOTE])
    (js "start /d " ++ [DQUOTE] ++ js "C:/vault" ++ [DQUOTE] ++ js " "
       ++ [DQUOTE] ++ js "wt.exe" ++ [DQUOTE]).
Proof.
  apply (createTerminalCommand_default_shape_quotes_path win32
           {| terminalBin := Some (js "wt.exe"); terminalArgs := Some (js " ") |}
           (js "C:/vault")).
  - right. reflexivity.
  - reflexivity.
Defined.

Lemma quoted_inj (a b : jsstring) : quoted a = quoted b -> a = b.
Proof.
  unfold quoted. intros H.
  apply app_inv_head in H. now apply app_inv_tail in H.
Qed.

(** Without a custom template two folder paths that give the same command
    are the same path: the command tells the folder. *)
Theorem createTerminalCommand_default_shape_injective (platform : jsstring)
    (settings : PluginSettings) (folderPath otherPath out : jsstring) :
  terminalBin settings = None \/ noTemplate (terminalArgs settings) ->
  createTerminalCommand platform settings folderPath = Right out ->
  createTerminalCommand platform settings otherPath = Right out ->
  folderPath = otherPath.
Proof.
  intros Hor E0 E2.
  assert (E1 : createTerminalCommand platform settings folderPath
               = createTerminalCommand platform settings otherPath) by congruence.
  destruct (recognized_or_not platform) as [Hr|Hn].
  - apply quoted_inj.
    destruct (terminalBin settings) as [b|] eqn:Hbin.
    + destruct Hor as [Hor|Hnt]; [discriminate Hor|].
      destruct (createTerminalCommand_custom_shapes settings folderPath b Hbin Hnt)
        as (Hw & Hd & Hl).
      destruct (createTerminalCommand_custom_shapes settings otherPath b Hbin Hnt)
        as (Hw' & Hd' & Hl').
      destruct Hr as [ -> | [ -> | -> ] ].
      * rewrite Hw, Hw' in E1. apply Right_inj in E1.
        apply app_inv_head in E1. now apply app_inv_tail in E1.
      * rewrite Hd, Hd' in E1. apply Right_inj in E1.
        do 3 apply app_inv_head in E1. exact E1.
      * rewrite Hl, Hl' in E1. apply Right_inj in E1.
        do 2 apply app_inv_head in E1. exact E1.
    + destruct (createTerminalCommand_inferred_shapes settings folderPath Hbin)
        as (Hw & Hd & Hl).
      destruct (createTerminalCommand_inferred_shapes settings otherPath Hbin)
        as (Hw' & Hd' & Hl').
      destruct Hr as [ -> | [ -> | -> ] ].
      * rewrite Hw, Hw' in E1. apply Right_inj in E1.
        apply app_inv_head in E1. now apply app_inv_tail in E1.
      * rewrite Hd, Hd' in E1. apply Right_inj in E1.
        now apply app_inv_head in E1.
      * rewrite Hl, Hl' in E1. apply Right_inj in E1.
        now apply app_inv_head in E1.
  - exfalso.
    assert (Hf : exists message,
               createTerminalCommand platform settings folderPath = Left message).
    { now apply unrecognized_default_fails. }
    destruct Hf as (msg & Hf). congruence.
Qed.

Lemma createTerminalCommand_default_shape_injective_witness :
  js "/vault/a" = js "/vault/a".
Proof.
  apply (createTerminalCommand_default_shape_injective darwin DEFAULT_SETTINGS
           (js "/vault/a") (js "/vault/a")
           (js "open -a Terminal " ++ quoted (js "/vault/a"))).
  - left. reflexivity.
  - reflexivity.
  - reflexivity.
Defined.

(* ================================================================== *)
(** ** The replacement patterns of a folder path *)
(* ================================================================== *)

Lemma hasDollarPattern_step (c d : codeUnit) (r : jsstring) :
  hasDollarPattern (c :: d :: r)
  = ((c =? DOLLAR) &&
     ((d =? DOLLAR) || (d =? BACKTICK) || (d =? AMPERSAND) || (d =? APOSTROPHE)))%N
    || hasDollarPattern (d :: r).
Proof. reflexivity. Qed.

(** A replacement in which no dollar sign is followed by [$], a backtick,
    [&] or an apostrophe is inserted as it is. *)
Lemma getSubstitution_literal (matched before after template : jsstring) :
  hasDollarPattern template = false ->
  getSubstitution matched before after template = template.
Proof.
  induction template as [|c r IH]; intros H; [reflexivity|].
  cbn [getSubstitution].
  destruct r as [|d r'].
  - now destruct (c =? DOLLAR)%N.
  - rewrite hasDollarPattern_step in H. apply orb_false_iff in H as (Hp & Hr).
    rewrite (IH Hr).
    destruct (c =? DOLLAR)%N; [|reflexivity].
    simpl in Hp. apply orb_false_iff in Hp as (Hp & H4).
    apply orb_false_iff in Hp as (Hp & H3).
    apply orb_false_iff in Hp as (H1 & H2).
    now rewrite H1, H2, H3, H4.
Qed.

Lemma hasDollarPattern_closing_quote (s : jsstring) :
  hasDollarPattern s = false -> hasDollarPattern (s ++ [DQUOTE]) = false.
Proof.
  induction s as [|c r IH]; intros H; [reflexivity|].
  destruct r as [|d r'].
  - simpl. now rewrite andb_false_r.
  - rewrite hasDollarPattern_step in H. apply orb_false_iff in H as (Hp & Hr).
    change ((c :: d :: r') ++ [DQUOTE]) with (c :: d :: (r' ++ [DQUOTE])).
    rewrite hasDollarPattern_step, Hp.
    apply (IH Hr).
Qed.

Lemma hasDollarPattern_quoted (s : jsstring) :
  hasDollarPattern s = false -> hasDollarPattern (quoted s) = false.
Proof.
  intros H. apply hasDollarPattern_closing_quote in H.
  unfold quoted. change ([DQUOTE] ++ s ++ [DQUOTE]) with (DQUOTE :: (s ++ [DQUOTE])).
  destruct (s ++ [DQUOTE]) as [|d r] eqn:E; [reflexivity|].
  now rewrite hasDollarPattern_step, H.
Qed.

Lemma no_dollar_no_pattern (s : jsstring) :
  ~ In DOLLAR s -> hasDollarPattern s = false.
Proof.
  induction s as [|c r IH]; intros H; [reflexivity|].
  destruct r as [|d r']; [reflexivity|].
  rewrite hasDollarPattern_step.
  rewrite IH by (intros Hin; apply H; now right).
  destruct (c =? DOLLAR)%N eqn:E; [|reflexivity].
  apply N.eqb_eq in E. exfalso. apply H. now left.
Qed.

(** The global replace of [{path}] by a replacement that is inserted as
    it is, on a subject cut at its placeholders. *)
Lemma replaceScan_pieces_literal (replacement : jsstring) (pieces : list jsstring) :
  hasDollarPattern replacement = false ->
  pieces <> [] ->
  Forall (fun piece => includes pathPlaceholder piece = false) pieces ->
  forall before,
    replaceScan pathPlaceholder replacement before (join pathPlaceholder pieces) 0
    = join replacement pieces.
Proof.
  intros Hd Hne Hall. induction Hall as [|u rest Hu Hrest IH]; [congruence|].
  intros before. destruct rest as [|v rest].
  - simpl join. rewrite <- (app_nil_r u) at 1.
    rewrite replaceScan_copy; [simpl; now rewrite app_nil_r|].
    intros a b -> _. rewrite app_nil_r.
    apply includes_startsWith. eapply includes_suffix; eauto.
  - change (join pathPlaceholder (u :: v :: rest))
      with (u ++ pathPlaceholder ++ join pathPlaceholder (v :: rest)).
    change (join replacement (u :: v :: rest))
      with (u ++ replacement ++ join replacement (v :: rest)).
    rewrite pathPlaceholder_copy by assumption.
    rewrite replaceScan_match by discriminate.
    rewrite getSubstitution_literal by assumption.
    rewrite IH by discriminate. reflexivity.
Qed.

(** A folder path may hold dollar signs: as long as none of them is
    followed by [$], a backtick, [&] or an apostrophe, every [{path}] of
    the template is replaced by the quoted folder path, placeholders
    inside the path itself included, which are not replaced again. *)
Theorem createTerminalCommand_template_literal_path (platform : jsstring)
    (settings : PluginSettings) (folderPath customTerminal template : jsstring)
    (pieces : list jsstring) :
  terminalBin settings = Some customTerminal ->
  terminalArgs settings = Some template ->
  ~ blank template ->
  hasDollarPattern folderPath = false ->
  cutAt pathPlaceholder template pieces ->
  createTerminalCommand platform settings folderPath
  = Right (quoted customTerminal ++ js " "
             ++ substituteAll (quoted folderPath) pieces).
Proof.
  intros Hbin Ht Hb Hd (Hne & -> & Hall).
  rewrite (createTerminalCommand_custom platform settings folderPath customTerminal Hbin).
  rewrite (customCommand_template platform settings folderPath customTerminal _ Ht Hb).
  unfold replaceGlobal, substituteAll.
  rewrite replaceScan_pieces_literal; auto using hasDollarPattern_quoted.
Qed.

Lemma createTerminalCommand_template_literal_path_witness :
  createTerminalCommand linux
    {| terminalBin := Some (js "xterm");
       terminalArgs := Some (js "-T {path} -e cd {path}") |}
    (js "/home/$USER/{path}$")
  = Right (quoted (js "xterm") ++ js " -T " ++ quoted (js "/home/$USER/{path}$")
             ++ js " -e cd " ++ quoted (js "/home/$USER/{path}$")).
Proof.
  apply (createTerminalCommand_template_literal_path linux
           {| terminalBin := Some (js "xterm");
              terminalArgs := Some (js "-T {path} -e cd {path}") |}
           (js "/home/$USER/{path}$") (js "xterm") (js "-T {path} -e cd {path}")
           [js "-T "; js " -e cd "; []]).
  - reflexivity.
  - reflexivity.
  - intros E; vm_compute in E; discriminate E.
  - reflexivity.
  - split; [discriminate|]. split; [reflexivity|]. repeat constructor.
Defined.

(* ================================================================== *)
(** ** The change handlers of the settings tab *)
(* ================================================================== *)

Lemma trimStart_fixed (s : jsstring) :
  match s with [] => True | c :: _ => isWhiteSpace c = false end ->
  trimStart s = s.
Proof. destruct s as [|c r]; simpl; [reflexivity|]. now intros ->. Qed.

Lemma trimStart_keeps_last (u : jsstring) (c : codeUnit) :
  isWhiteSpace c = false -> trimStart (u ++ [c]) = trimStart u ++ [c].
Proof.
  intros Hc. induction u as [|x u IH]; simpl; [now rewrite Hc|].
  destruct (isWhiteSpace x); [exact IH | reflexivity].
Qed.

(** [trim] leaves white space at neither end. *)
Lemma trim_trimmed (s : jsstring) : trimmed (trim s).
Proof.
  unfold trimmed, trim, trimEnd. split.
  - pose proof (trimStart_head s) as Hh.
    destruct (trimStart s) as [|c r]; [exact I|].
    simpl rev. rewrite trimStart_keeps_last by assumption.
    rewrite rev_app_distr. simpl. exact Hh.
  - rewrite rev_involutive. apply trimStart_head.
Qed.

(** A string without white space at its ends is left as it is. *)
Lemma trim_fixed (s : jsstring) : trimmed s -> trim s = s.
Proof.
  intros (Hhead & Hlast). unfold trim, trimEnd.
  rewrite (trimStart_fixed s Hhead), (trimStart_fixed (rev s) Hlast).
  apply rev_involutive.
Qed.

Lemma trim_idempotent (s : jsstring) : trim (trim s) = trim s.
Proof. apply trim_fixed, trim_trimmed. Qed.

(** Whatever text is typed, the two handlers leave a field that is absent
    or holds a non-empty string without white space at its ends. *)
Theorem onChange_normalises (settings : PluginSettings) (value : jsstring) :
  normalised (terminalBin (onChangeTerminalBin value settings)) /\
  normalised (terminalArgs (onChangeTerminalArgs value settings)).
Proof.
  unfold onChangeTerminalBin, onChangeTerminalArgs; simpl.
  destruct (strictEq (trim value) []) eqn:E; simpl; [split; exact I|].
  apply strictEq_neq in E.
  split; (split; [exact E | apply trim_trimmed]).
Qed.

Lemma normalised_not_blank (field : option jsstring) (s : jsstring) :
  normalised field -> field = Some s -> ~ blank s.
Proof.
  intros H ->. destruct H as (Hne & Ht). unfold blank.
  now rewrite (trim_fixed s Ht).
Qed.

(** The settings tab shows a stored field and stores what is typed:
    typing the shown value of a normalised field back stores the same
    settings. So the handlers reach a fixed point after one edit. *)
Theorem onChange_shown_value_is_kept (settings : PluginSettings) :
  (normalised (terminalBin settings) ->
     onChangeTerminalBin (fieldValue (terminalBin settings)) settings = settings) /\
  (normalised (terminalArgs settings) ->
     onChangeTerminalArgs (fieldValue (terminalArgs settings)) settings = settings).
Proof.
  destruct settings as [bin targs]; unfold onChangeTerminalBin, onChangeTerminalArgs,
    fieldValue, pipe; simpl.
  split; intros H.
  - destruct bin as [b|]; simpl; [|reflexivity].
    destruct H as (Hne & Ht). rewrite (trim_fixed b Ht).
    apply strictEq_neq in Hne. now rewrite Hne.
  - destruct targs as [t|]; simpl; [|reflexivity].
    destruct H as (Hne & Ht). rewrite (trim_fixed t Ht).
    apply strictEq_neq in Hne. now rewrite Hne.
Qed.

Lemma onChange_shown_value_is_kept_witness :
  let settings := onChangeTerminalBin (js "  /usr/bin/kitty ") DEFAULT_SETTINGS in
  settings = {| terminalBin := Some (js "/usr/bin/kitty"); terminalArgs := None |} /\
  onChangeTerminalBin (fieldValue (terminalBin settings)) settings = settings.
Proof.
  split; [reflexivity|].
  apply (proj1 (onChange_shown_value_is_kept
                  (onChangeTerminalBin (js "  /usr/bin/kitty ") DEFAULT_SETTINGS))).
  split; [discriminate | split; reflexivity].
Defined.

(** Both texts typed and not blank: on every platform, recognized or
    not, the command is the trimmed binary, quoted, a space and the
    trimmed template with its placeholders replaced. A template the
    handler stored is never taken for absent. *)
Theorem createTerminalCommand_after_edits (platform : jsstring)
    (settings : PluginSettings) (binText argsText folderPath : jsstring) :
  ~ blank binText ->
  ~ blank argsText ->
  createTerminalCommand platform
    (onChangeTerminalArgs argsText (onChangeTerminalBin binText settings)) folderPath
  = Right (quoted (trim binText) ++ js " "
             ++ replaceGlobal pathPlaceholder (quoted folderPath) (trim argsText)).
Proof.
  intros Hb Ha.
  pose proof Hb as Hb'. pose proof Ha as Ha'.
  apply not_blank_test in Hb', Ha'.
  rewrite (createTerminalCommand_custom platform _ folderPath (trim binText));
    [|unfold onChangeTerminalArgs, onChangeTerminalBin; simpl; now rewrite Hb'].
  apply customCommand_template.
  - unfold onChangeTerminalArgs; simpl. now rewrite Ha'.
  - unfold blank. rewrite trim_idempotent. exact Ha.
Qed.

Lemma createTerminalCommand_after_edits_witness :
  createTerminalCommand (js "freebsd")
    (onChangeTerminalArgs (js "  -e cd {path} ")
       (onChangeTerminalBin (js " xterm ") DEFAULT_SETTINGS))
    (js "/vault")
  = Right (quoted (js "xterm") ++ js " -e cd " ++ quoted (js "/vault")).
Proof.
  apply (createTerminalCommand_after_edits (js "freebsd") DEFAULT_SETTINGS
           (js " xterm ") (js "  -e cd {path} ") (js "/vault"));
    intros E; vm_compute in E; discriminate E.
Defined.

(* ================================================================== *)
(** ** What a call shows and spawns *)
(* ================================================================== *)

Lemma notices_app (a b : list Event) : notices (a ++ b) = notices a ++ notices b.
Proof. apply flat_map_app. Qed.

Lemma spawned_app (a b : list Event) : spawned (a ++ b) = spawned a ++ spawned b.
Proof. apply flat_map_app. Qed.

Lemma escaped_app (a b : list Event) : escaped (a ++ b) = escaped a ++ escaped b.
Proof. apply flat_map_app. Qed.

Lemma consoleErrors_app (a b : list Event) :
  consoleErrors (a ++ b) = consoleErrors a + consoleErrors b.
Proof. unfold consoleErrors. now rewrite filter_app, length_app. Qed.

Lemma createTerminalCommandLog_quiet (settings : PluginSettings) :
  notices (createTerminalCommandLog settings) = [] /\
  spawned (createTerminalCommandLog settings) = [] /\
  consoleErrors (createTerminalCommandLog settings) = 0 /\
  escaped (createTerminalCommandLog settings) = [].
Proof.
  unfold createTerminalCommandLog, pipe.
  destruct (terminalBin settings); repeat split.
Qed.

Lemma execCallback_shows (command : jsstring) (outcome : ExecOutcome) :
  notices (execCallback command outcome) = [outcomeNotice outcome] /\
  spawned (execCallback command outcome) = [] /\
  (consoleErrors (execCallback command outcome) = 0 <-> error outcome = None) /\
  escaped (execCallback command outcome) = [].
Proof.
  unfold execCallback, outcomeNotice.
  destruct (error outcome) as [e|].
  - destruct (truthy (stderr outcome)); repeat split; try discriminate.
  - destruct (truthy (stdout outcome)); repeat split.
Qed.

(** The actions of [openTerminalInPath] up to the call of [exec]. *)
Lemma openTerminalInPath_built (platform : jsstring) (settings : PluginSettings)
    (run : jsstring -> ExecResult) (folderPath command : jsstring) :
  createTerminalCommand platform settings folderPath = Right command ->
  openTerminalInPath platform settings run folderPath
  = ([consoleLog [Str (js "Opening terminal in path:"); Str folderPath]]
     ++ createTerminalCommandLog settings
     ++ [consoleLog [Str (js "Executing command:"); Str command]; exec command])
    ++ match run command with
       | execThrows e => [thrown e]
       | execPending => []
       | execCalls outcome => execCallback command outcome
       end.
Proof.
  intros E. unfold openTerminalInPath, pipe. rewrite E. unfold eitherFold.
  now rewrite <- !app_assoc.
Qed.

Lemma openTerminalInPath_not_built (platform : jsstring) (settings : PluginSettings)
    (run : jsstring -> ExecResult) (folderPath msg : jsstring) :
  createTerminalCommand platform settings folderPath = Left msg ->
  openTerminalInPath platform settings run folderPath
  = ([consoleLog [Str (js "Opening terminal in path:"); Str folderPath]]
     ++ createTerminalCommandLog settings)
    ++ [consoleError [Str (js "Error creating terminal command:"); Str msg];
        newNotice (js "Failed to create terminal command: " ++ msg)].
Proof.
  intros E. unfold openTerminalInPath, pipe. rewrite E. unfold eitherFold.
  now rewrite <- !app_assoc.
Qed.

Lemma notices_of_openTerminalInPath (platform : jsstring) (settings : PluginSettings)
    (run : jsstring -> ExecResult) (folderPath : jsstring) :
  notices (openTerminalInPath platform settings run folderPath)
  = match createTerminalCommand platform settings folderPath with
    | Left message => [js "Failed to create terminal command: " ++ message]
    | Right command => execNotices (run command)
    end.
Proof.
  destruct (createTerminalCommand platform settings folderPath) as [msg|command] eqn:E.
  - rewrite (openTerminalInPath_not_built platform settings run folderPath msg E).
    rewrite !notices_app, (proj1 (createTerminalCommandLog_quiet settings)).
    reflexivity.
  - rewrite (openTerminalInPath_built platform settings run folderPath command E).
    rewrite !notices_app, (proj1 (createTerminalCommandLog_quiet settings)).
    destruct (run command) as [e| |outcome]; try reflexivity.
    now rewrite (proj1 (execCallback_shows command outcome)).
Qed.

Lemma spawned_of_openTerminalInPath (platform : jsstring) (settings : PluginSettings)
    (run : jsstring -> ExecResult) (folderPath : jsstring) :
  spawned (openTerminalInPath platform settings run folderPath)
  = match createTerminalCommand platform settings folderPath with
    | Left _ => []
    | Right command => [command]
    end.
Proof.
  destruct (createTerminalCommand platform settings folderPath) as [msg|command] eqn:E.
  - rewrite (openTerminalInPath_not_built platform settings run folderPath msg E).
    rewrite !spawned_app, (proj1 (proj2 (createTerminalCommandLog_quiet settings))).
    reflexivity.
  - rewrite (openTerminalInPath_built platform settings run folderPath command E).
    rewrite !spawned_app, (proj1 (proj2 (createTerminalCommandLog_quiet settings))).
    destruct (run command) as [e| |outcome]; try reflexivity.
    now rewrite (proj1 (proj2 (execCallback_shows command outcome))).
Qed.

Lemma escaped_of_openTerminalInPath (platform : jsstring) (settings : PluginSettings)
    (run : jsstring -> ExecResult) (folderPath : jsstring) :
  escaped (openTerminalInPath platform settings run folderPath)
  = match createTerminalCommand platform settings folderPath with
    | Left _ => []
    | Right command =>
        match run command with
        | execThrows e => [e]
        | execPending | execCalls _ => []
        end
    end.
Proof.
  destruct (createTerminalCommand platform settings folderPath) as [msg|command] eqn:E.
  - rewrite (openTerminalInPath_not_built platform settings run folderPath msg E).
    rewrite !escaped_app,
      (proj2 (proj2 (proj2 (createTerminalCommandLog_quiet settings)))).
    reflexivity.
  - rewrite (openTerminalInPath_built platform settings run folderPath command E).
    rewrite !escaped_app,
      (proj2 (proj2 (proj2 (createTerminalCommandLog_quiet settings)))).
    destruct (run command) as [e| |outcome]; try reflexivity.
    now rewrite (proj2 (proj2 (proj2 (execCallback_shows command outcome)))).
Qed.

(** [console.error] is written by the call itself when the builder fails
    and when [exec] calls back with an error, and in no other case. *)
Lemma consoleErrors_of_openTerminalInPath (platform : jsstring)
    (settings : PluginSettings) (run : jsstring -> ExecResult)
    (folderPath : jsstring) :
  consoleErrors (openTerminalInPath platform settings run folderPath) = 0
  <-> exists command,
        createTerminalCommand platform settings folderPath = Right command /\
        match run command with
        | execCalls outcome => error outcome = None
        | execThrows _ | execPending => True
        end.
Proof.
  destruct (createTerminalCommand platform settings folderPath) as [msg|command] eqn:E.
  - rewrite (openTerminalInPath_not_built platform settings run folderPath msg E).
    rewrite !consoleErrors_app.
    rewrite (proj1 (proj2 (proj2 (createTerminalCommandLog_quiet settings)))).
    split; [discriminate|]. intros (c & Hc & _). discriminate Hc.
  - rewrite (openTerminalInPath_built platform settings run folderPath command E).
    rewrite !consoleErrors_app.
    rewrite (proj1 (proj2 (proj2 (createTerminalCommandLog_quiet settings)))).
    change (consoleErrors [consoleLog [Str (js "Opening terminal in path:"); Str folderPath]])
      with 0.
    change (consoleErrors [consoleLog [Str (js "Executing command:"); Str command];
                           exec command]) with 0.
    simpl Nat.add.
    assert (Hx : match run command with
                 | execThrows e => consoleErrors [thrown e]
                 | execPending => consoleErrors []
                 | execCalls outcome => consoleErrors (execCallback command outcome)
                 end = 0
                 <-> match run command with
                     | execCalls outcome => error outcome = None
                     | execThrows _ | execPending => True
                     end).
    { destruct (run command) as [e| |outcome].
      - split; [intros _; exact I | reflexivity].
      - split; [intros _; exact I | reflexivity].
      - apply (proj1 (proj2 (proj2 (execCallback_shows command outcome)))). }
    assert (Hm : consoleErrors
                   match run command with
                   | execThrows e => [thrown e]
                   | execPending => []
                   | execCalls outcome => execCallback command outcome
                   end
                 = match run command with
                   | execThrows e => consoleErrors [thrown e]
                   | execPending => consoleErrors []
                   | execCalls outcome => consoleErrors (execCallback command outcome)
                   end) by now destruct (run command).
    rewrite Hm, Hx. split.
    + intros H. now exists command.
    + intros (c & Hc & H). apply Right_inj in Hc. now subst c.
Qed.

(** A call of [openTerminalInPath] shows at most one notice: the error
    of the builder; or, once [exec] has called back, the message of the
    error it reports or the success message. It shows none when [exec]
    throws and as long as [exec] has not called back. *)
Theorem openTerminalInPath_notice (platform : jsstring) (settings : PluginSettings)
    (run : jsstring -> ExecResult) (folderPath : jsstring) :
  notices (openTerminalInPath platform settings run folderPath)
  = match createTerminalCommand platform settings folderPath with
    | Left message => [js "Failed to create terminal command: " ++ message]
    | Right command =>
        match run command with
        | execCalls outcome =>
            [match error outcome with
             | Some e => js "Failed to open terminal: " ++ message e
             | None => js "Terminal opened successfully"
             end]
        | execThrows _ | execPending => []
        end
    end /\
  List.length (notices (openTerminalInPath platform settings run folderPath)) <= 1.
Proof.
  rewrite notices_of_openTerminalInPath.
  destruct (createTerminalCommand platform settings folderPath) as [msg|command].
  - split; [reflexivity | simpl; lia].
  - destruct (run command) as [e| |outcome]; split; try reflexivity; simpl; lia.
Qed.

(** A call of [openTerminalInPath] hands a command to [exec] only when
    the builder returned one, then that command and once; when the
    builder fails nothing is spawned. *)
Theorem openTerminalInPath_spawns (platform : jsstring) (settings : PluginSettings)
    (run : jsstring -> ExecResult) (folderPath : jsstring) :
  spawned (openTerminalInPath platform settings run folderPath)
  = match createTerminalCommand platform settings folderPath with
    | Left _ => []
    | Right command => [command]
    end.
Proof. apply spawned_of_openTerminalInPath. Qed.

(** Inside a call of [openTerminalInPath] an error line and a failure
    notice go together. The call writes no [console.error] exactly when
    it shows the success notice or no notice; it shows the success notice
    exactly when [exec] called back without an error, and no notice
    exactly when [exec] threw, which leaves the call unlogged, or has not
    called back. *)
Theorem openTerminalInPath_errors_are_logged (platform : jsstring)
    (settings : PluginSettings) (run : jsstring -> ExecResult)
    (folderPath : jsstring) :
  (consoleErrors (openTerminalInPath platform settings run folderPath) = 0
   <-> notices (openTerminalInPath platform settings run folderPath) = [] \/
       notices (openTerminalInPath platform settings run folderPath)
       = [js "Terminal opened successfully"]) /\
  (notices (openTerminalInPath platform settings run folderPath)
   = [js "Terminal opened successfully"]
   <-> exists command outcome,
         createTerminalCommand platform settings folderPath = Right command /\
         run command = execCalls outcome /\ error outcome = None) /\
  (notices (openTerminalInPath platform settings run folderPath) = []
   <-> exists command,
         createTerminalCommand platform settings folderPath = Right command /\
         (run command = execPending \/ exists e, run command = execThrows e)).
Proof.
  rewrite consoleErrors_of_openTerminalInPath, notices_of_openTerminalInPath.
  destruct (createTerminalCommand platform settings folderPath) as [msg|command].
  - repeat split.
    + intros (c & E & _). discriminate E.
    + intros [E|E]; [discriminate E | simpl in E; discriminate E].
    + intros E. simpl in E. discriminate E.
    + intros (c & o & E & _). discriminate E.
    + intros E. discriminate E.
    + intros (c & E & _). discriminate E.
  - destruct (run command) as [e| |outcome] eqn:Hrun; simpl execNotices.
    + repeat split.
      * intros _. now left.
      * intros _. exists command. split; [reflexivity | now rewrite Hrun].
      * intros E. discriminate E.
      * intros (c & o & E & Hr & _). apply Right_inj in E. subst c. congruence.
      * intros _. exists command. split; [reflexivity|]. right. now exists e.
    + repeat split.
      * intros _. now left.
      * intros _. exists command. split; [reflexivity | now rewrite Hrun].
      * intros E. discriminate E.
      * intros (c & o & E & Hr & _). apply Right_inj in E. subst c. congruence.
      * intros _. exists command. split; [reflexivity|]. now left.
    + unfold outcomeNotice. destruct (error outcome) as [e|] eqn:He.
      * repeat split.
        -- intros (c & E & H). apply Right_inj in E. subst c.
           rewrite Hrun in H. congruence.
        -- intros [E|E]; [discriminate E | simpl in E; discriminate E].
        -- intros E. simpl in E. discriminate E.
        -- intros (c & o & E & Hr & Ho). apply Right_inj in E. subst c.
           rewrite Hrun in Hr. injection Hr as <-. congruence.
        -- intros E. discriminate E.
        -- intros (c & E & [Hr|(x & Hr)]); apply Right_inj in E; subst c;
             congruence.
      * repeat split.
        -- intros _. now right.
        -- intros _. exists command. split; [reflexivity|]. now rewrite Hrun.
        -- intros _. exists command, outcome. now repeat split.
        -- intros E. discriminate E.
        -- intros (c & E & [Hr|(x & Hr)]); apply Right_inj in E; subst c;
             congruence.
Qed.

(** On a recognized platform every call hands exactly one command to
    [exec], the one the builder returns. Its notice, shown once [exec]
    has called back, reports how the process ended; when [exec] throws,
    the call shows no notice and the exception leaves it. *)
Theorem openTerminalInPath_recognized (platform : jsstring)
    (settings : PluginSettings) (run : jsstring -> ExecResult)
    (folderPath : jsstring) :
  recognized platform ->
  exists command,
    createTerminalCommand platform settings folderPath = Right command /\
    spawned (openTerminalInPath platform settings run folderPath) = [command] /\
    notices (openTerminalInPath platform settings run folderPath)
    = match run command with
      | execCalls outcome =>
          [match error outcome with
           | Some e => js "Failed to open terminal: " ++ message e
           | None => js "Terminal opened successfully"
           end]
      | execThrows _ | execPending => []
      end /\
    escaped (openTerminalInPath platform settings run folderPath)
    = match run command with
      | execThrows e => [e]
      | execPending | execCalls _ => []
      end.
Proof.
  intros Hr.
  rewrite notices_of_openTerminalInPath, spawned_of_openTerminalInPath,
    escaped_of_openTerminalInPath.
  destruct (createTerminalCommand platform settings folderPath) as [msg|c] eqn:E.
  - exfalso.
    destruct (terminalBin settings) as [b|] eqn:Hbin.
    + destruct (template_or_not (terminalArgs settings)) as [Hnt|(t & Ht & Hb)].
      * destruct (createTerminalCommand_custom_shapes settings folderPath b Hbin Hnt)
          as (Hw & Hd & Hl).
        destruct Hr as [ -> | [ -> | -> ] ]; congruence.
      * rewrite (createTerminalCommand_custom platform settings folderPath b Hbin) in E.
        rewrite (customCommand_template platform settings folderPath b t Ht Hb) in E.
        discriminate E.
    + destruct (createTerminalCommand_inferred_shapes settings folderPath Hbin)
        as (Hw & Hd & Hl).
      destruct Hr as [ -> | [ -> | -> ] ]; congruence.
  - exists c. repeat split.
Qed.

Lemma openTerminalInPath_recognized_witness :
  exists command,
    createTerminalCommand linux DEFAULT_SETTINGS (js "/vault") = Right command /\
    spawned (openTerminalInPath linux DEFAULT_SETTINGS
               (fun _ => execCalls {| error := Some {| message := js "spawn ENOENT" |};
                                      stdout := []; stderr := js "not found" |})
               (js "/vault"))
    = [command] /\
    notices (openTerminalInPath linux DEFAULT_SETTINGS
               (fun _ => execCalls {| error := Some {| message := js "spawn ENOENT" |};
                                      stdout := []; stderr := js "not found" |})
               (js "/vault"))
    = [js "Failed to open terminal: spawn ENOENT"] /\
    escaped (openTerminalInPath linux DEFAULT_SETTINGS
               (fun _ => execCalls {| error := Some {| message := js "spawn ENOENT" |};
                                      stdout := []; stderr := js "not found" |})
               (js "/vault"))
    = [].
Proof.
  apply (openTerminalInPath_recognized linux DEFAULT_SETTINGS
           (fun _ => execCalls {| error := Some {| message := js "spawn ENOENT" |};
                                  stdout := []; stderr := js "not found" |})
           (js "/vault")).
  right; right; reflexivity.
Defined.

(** On any other platform, with no custom binary, a call spawns nothing
    and the notice names the platform. *)
Theorem openTerminalInPath_unsupported (platform : jsstring)
    (settings : PluginSettings) (run : jsstring -> ExecResult)
    (folderPath : jsstring) :
  ~ recognized platform ->
  terminalBin settings = None ->
  spawned (openTerminalInPath platform settings run folderPath) = [] /\
  notices (openTerminalInPath platform settings run folderPath)
  = [js "Failed to create terminal command: Unsupported platform: " ++ platform].
Proof.
  intros Hn Hbin.
  destruct (unrecognized_switch platform Hn) as (Hw & Hd & Hl).
  assert (E : createTerminalCommand platform settings folderPath
              = Left (unsupportedPlatform platform)).
  { rewrite createTerminalCommand_inferred by assumption.
    unfold inferTerminalCommand. now rewrite Hw, Hd, Hl. }
  rewrite notices_of_openTerminalInPath, spawned_of_openTerminalInPath, E.
  split; reflexivity.
Qed.

Lemma openTerminalInPath_unsupported_witness :
  spawned (openTerminalInPath (js "freebsd") DEFAULT_SETTINGS
             (fun _ => execCalls {| error := None; stdout := []; stderr := [] |})
             (js "/vault"))
  = [] /\
  notices (openTerminalInPath (js "freebsd") DEFAULT_SETTINGS
             (fun _ => execCalls {| error := None; stdout := []; stderr := [] |})
             (js "/vault"))
  = [js "Failed to create terminal command: Unsupported platform: freebsd"].
Proof.
  apply (openTerminalInPath_unsupported (js "freebsd") DEFAULT_SETTINGS
           (fun _ => execCalls {| error := None; stdout := []; stderr := [] |})
           (js "/vault")).
  - intros [E|[E|E]]; vm_compute in E; discriminate E.
  - reflexivity.
Defined.

(* ================================================================== *)
(** ** The two entry points: the folder menu and the vault-root command *)
(* ================================================================== *)

Lemma truthy_nonempty (s : jsstring) : truthy s = true <-> s <> [].
Proof. destruct s; simpl; split; congruence. Qed.

Lemma tryCatch_app (a b : list Event) (handler : JsError -> list Event) :
  escaped a = [] -> tryCatch (a ++ b) handler = a ++ tryCatch b handler.
Proof.
  induction a as [|event a IH]; intros H; [reflexivity|].
  destruct event; simpl in *; try (now rewrite IH). discriminate H.
Qed.

Lemma tryCatch_quiet (a : list Event) (handler : JsError -> list Event) :
  escaped a = [] -> tryCatch a handler = a.
Proof.
  intros H. rewrite <- (app_nil_r a) at 1.
  rewrite tryCatch_app by assumption. simpl. apply app_nil_r.
Qed.

(** [openTerminalInPath] inside a [try] block: the handler runs when
    [exec] throws, after the command was handed to [exec]. *)
Lemma tryCatch_openTerminalInPath (platform : jsstring) (settings : PluginSettings)
    (run : jsstring -> ExecResult) (folderPath : jsstring)
    (handler : JsError -> list Event) :
  tryCatch (openTerminalInPath platform settings run folderPath) handler
  = match createTerminalCommand platform settings folderPath with
    | Left _ => openTerminalInPath platform settings run folderPath
    | Right command =>
        match run command with
        | execThrows e =>
            ([consoleLog [Str (js "Opening terminal in path:"); Str folderPath]]
             ++ createTerminalCommandLog settings
             ++ [consoleLog [Str (js "Executing command:"); Str command];
                 exec command])
            ++ handler e
        | execPending | execCalls _ =>
            openTerminalInPath platform settings run folderPath
        end
    end.
Proof.
  pose proof (escaped_of_openTerminalInPath platform settings run folderPath) as He.
  destruct (createTerminalCommand platform settings folderPath) as [msg|command] eqn:E.
  - now apply tryCatch_quiet.
  - destruct (run command) as [e| |outcome] eqn:Hrun;
      try (now apply tryCatch_quiet).
    rewrite (openTerminalInPath_built platform settings run folderPath command E), Hrun.
    rewrite tryCatch_app; [reflexivity|].
    rewrite !escaped_app,
      (proj2 (proj2 (proj2 (createTerminalCommandLog_quiet settings)))).
    reflexivity.
Qed.

(** What a guarded call shows, spawns and lets escape, for a handler that
    shows one notice, spawns nothing and throws nothing. *)
Lemma guarded_openTerminalInPath (platform : jsstring) (settings : PluginSettings)
    (run : jsstring -> ExecResult) (folderPath : jsstring)
    (handler : JsError -> list Event) (notice : jsstring) :
  (forall e, notices (handler e) = [notice]) ->
  (forall e, spawned (handler e) = []) ->
  (forall e, escaped (handler e) = []) ->
  notices (tryCatch (openTerminalInPath platform settings run folderPath) handler)
  = match createTerminalCommand platform settings folderPath with
    | Left message => [js "Failed to create terminal command: " ++ message]
    | Right command =>
        match run command with
        | execThrows _ => [notice]
        | execPending => []
        | execCalls outcome => [outcomeNotice outcome]
        end
    end /\
  spawned (tryCatch (openTerminalInPath platform settings run folderPath) handler)
  = match createTerminalCommand platform settings folderPath with
    | Left _ => []
    | Right command => [command]
    end /\
  escaped (tryCatch (openTerminalInPath platform settings run folderPath) handler) = [].
Proof.
  intros Hn Hs He.
  rewrite tryCatch_openTerminalInPath.
  pose proof (notices_of_openTerminalInPath platform settings run folderPath) as Pn.
  pose proof (spawned_of_openTerminalInPath platform settings run folderPath) as Ps.
  pose proof (escaped_of_openTerminalInPath platform settings run folderPath) as Pe.
  destruct (createTerminalCommand platform settings folderPath) as [msg|command].
  - now rewrite Pn, Ps, Pe.
  - destruct (run command) as [e| |outcome].
    + rewrite !notices_app, !spawned_app, !escaped_app, Hn, Hs, He.
      destruct (createTerminalCommandLog_quiet settings) as (Q1 & Q2 & _ & Q4).
      rewrite Q1, Q2, Q4. repeat split.
    + now rewrite Pn, Ps, Pe.
    + now rewrite Pn, Ps, Pe.
Qed.

(** With a [FileSystemAdapter] no exception leaves an entry point, and
    each entry point shows exactly one notice, whatever [getBasePath] and
    [exec] do, except that it shows none as long as [exec] has not called
    back. With any other adapter an entry point does nothing: no notice,
    no log line, no process. *)
Theorem entry_points_notice_count (platform : jsstring) (settings : PluginSettings)
    (run : jsstring -> ExecResult) (pathJoin : jsstring -> jsstring -> jsstring)
    (adapter : DataAdapter) (folder : TFolder) :
  match adapter with
  | FileSystemAdapter getBasePath =>
      escaped (openTerminalVaultRoot platform settings run adapter) = [] /\
      escaped (openTerminalInFolder platform settings run pathJoin adapter folder) = [] /\
      (List.length (notices (openTerminalVaultRoot platform settings run adapter)) = 1 \/
       notices (openTerminalVaultRoot platform settings run adapter) = [] /\
       exists basePath command,
         getBasePath = Right basePath /\
         createTerminalCommand platform settings basePath = Right command /\
         run command = execPending) /\
      (List.length (notices (openTerminalInFolder platform settings run pathJoin
                               adapter folder)) = 1 \/
       notices (openTerminalInFolder platform settings run pathJoin adapter folder) = [] /\
       exists vaultPath command,
         getBasePath = Right vaultPath /\
         createTerminalCommand platform settings (pathJoin vaultPath (path folder))
         = Right command /\
         run command = execPending)
  | OtherAdapter =>
      openTerminalVaultRoot platform settings run adapter = [] /\
      openTerminalInFolder platform settings run pathJoin adapter folder = []
  end.
Proof.
  destruct adapter as [[thrownError|basePath]|]; simpl.
  - repeat split; now left.
  - destruct (truthy basePath); [|repeat split; now left].
    set (rootHandler := fun error : JsError =>
           [consoleError [Str (js "Error getting vault path:"); Err error];
            newNotice (js "Could not determine vault path.")]).
    set (folderHandler := fun error : JsError =>
           [consoleError [Str (js "Error getting folder path:"); Err error];
            newNotice (js "Could not determine folder path.")]).
    destruct (guarded_openTerminalInPath platform settings run basePath rootHandler
                (js "Could not determine vault path."))
      as (Rn & _ & Re); try (intros; reflexivity).
    destruct (guarded_openTerminalInPath platform settings run
                (pathJoin basePath (path folder)) folderHandler
                (js "Could not determine folder path."))
      as (Fn & _ & Fe); try (intros; reflexivity).
    rewrite Rn, Fn, Re, Fe.
    split; [reflexivity|]. split; [reflexivity|]. split.
    + destruct (createTerminalCommand platform settings basePath) as [msg|c] eqn:E;
        [now left|].
      destruct (run c) as [e| |outcome] eqn:Hrun; [now left | | now left].
      right. split; [reflexivity|]. now exists basePath, c.
    + destruct (createTerminalCommand platform settings (pathJoin basePath (path folder)))
        as [msg|c] eqn:E; [now left|].
      destruct (run c) as [e| |outcome] eqn:Hrun; [now left | | now left].
      right. split; [reflexivity|]. now exists basePath, c.
  - split; reflexivity.
Qed.

(** A process is spawned from an entry point only for a base path that
    [getBasePath] returned and that is not empty: the command spawned is
    the one built for that base path (vault root) or for [path.join] of it
    and the folder's path (folder menu). *)
Theorem entry_points_spawn_only_with_base_path (platform : jsstring)
    (settings : PluginSettings) (run : jsstring -> ExecResult)
    (pathJoin : jsstring -> jsstring -> jsstring)
    (adapter : DataAdapter) (folder : TFolder) (command : jsstring) :
  (In command (spawned (openTerminalVaultRoot platform settings run adapter)) ->
     exists basePath,
       adapter = FileSystemAdapter (Right basePath) /\ basePath <> [] /\
       createTerminalCommand platform settings basePath = Right command) /\
  (In command (spawned (openTerminalInFolder platform settings run pathJoin
                          adapter folder)) ->
     exists vaultPath,
       adapter = FileSystemAdapter (Right vaultPath) /\ vaultPath <> [] /\
       createTerminalCommand platform settings (pathJoin vaultPath (path folder))
       = Right command).
Proof.
  split; intros Hin.
  - destruct adapter as [[thrownError|basePath]|]; simpl in Hin; try contradiction.
    destruct (truthy basePath) eqn:Ht; [|contradiction].
    destruct (guarded_openTerminalInPath platform settings run basePath
                (fun error : JsError =>
                   [consoleError [Str (js "Error getting vault path:"); Err error];
                    newNotice (js "Could not determine vault path.")])
                (js "Could not determine vault path."))
      as (_ & Hs & _); try (intros; reflexivity).
    rewrite Hs in Hin.
    exists basePath. split; [reflexivity|]. split; [now apply truthy_nonempty|].
    destruct (createTerminalCommand platform settings basePath) as [msg|c];
      [contradiction|].
    destruct Hin as [->|[]]. reflexivity.
  - destruct adapter as [[thrownError|vaultPath]|]; simpl in Hin; try contradiction.
    destruct (truthy vaultPath) eqn:Ht; [|contradiction].
    destruct (guarded_openTerminalInPath platform settings run
                (pathJoin vaultPath (path folder))
                (fun error : JsError =>
                   [consoleError [Str (js "Error getting folder path:"); Err error];
                    newNotice (js "Could not determine folder path.")])
                (js "Could not determine folder path."))
      as (_ & Hs & _); try (intros; reflexivity).
    rewrite Hs in Hin.
    exists vaultPath. split; [reflexivity|]. split; [now apply truthy_nonempty|].
    destruct (createTerminalCommand platform settings (pathJoin vaultPath (path folder)))
      as [msg|c]; [contradiction|].
    destruct Hin as [->|[]]. reflexivity.
Qed.

Lemma entry_points_spawn_only_with_base_path_witness :
  exists basePath,
    FileSystemAdapter (Right (js "/vault")) = FileSystemAdapter (Right basePath) /\
    basePath <> [] /\
    createTerminalCommand linux DEFAULT_SETTINGS basePath
    = Right (js "gnome-terminal --working-directory=" ++ quoted (js "/vault")).
Proof.
  apply (proj1 (entry_points_spawn_only_with_base_path linux DEFAULT_SETTINGS
                  (fun _ => execCalls {| error := None; stdout := []; stderr := [] |})
                  (fun a b => a ++ js "/" ++ b)
                  (FileSystemAdapter (Right (js "/vault")))
                  {| path := js "notes" |}
                  (js "gnome-terminal --working-directory=" ++ quoted (js "/vault")))).
  left. reflexivity.
Defined.

(** When [exec] throws on the command built, the [try] block of the
    entry point takes the exception: after the command was handed to
    [exec], the call writes an error line and its one notice says that
    the vault path, or the folder path, could not be determined. *)
Theorem entry_points_report_exec_throw_as_path_error (platform : jsstring)
    (settings : PluginSettings) (run : jsstring -> ExecResult)
    (pathJoin : jsstring -> jsstring -> jsstring) (folder : TFolder)
    (basePath : jsstring) (e : JsError) :
  basePath <> [] ->
  (forall command,
     createTerminalCommand platform settings basePath = Right command ->
     run command = execThrows e ->
     let trace :=
       openTerminalVaultRoot platform settings run (FileSystemAdapter (Right basePath)) in
     spawned trace = [command] /\
     notices trace = [js "Could not determine vault path."] /\
     In (consoleError [Str (js "Error getting vault path:"); Err e]) trace) /\
  (forall command,
     createTerminalCommand platform settings (pathJoin basePath (path folder))
     = Right command ->
     run command = execThrows e ->
     let trace :=
       openTerminalInFolder platform settings run pathJoin
         (FileSystemAdapter (Right basePath)) folder in
     spawned trace = [command] /\
     notices trace = [js "Could not determine folder path."] /\
     In (consoleError [Str (js "Error getting folder path:"); Err e]) trace).
Proof.
  intros Hne. apply truthy_nonempty in Hne.
  split; intros command E Hrun; cbv zeta; simpl; rewrite Hne.
  - destruct (guarded_openTerminalInPath platform settings run basePath
                (fun error : JsError =>
                   [consoleError [Str (js "Error getting vault path:"); Err error];
                    newNotice (js "Could not determine vault path.")])
                (js "Could not determine vault path."))
      as (Hn & Hs & _); try (intros; reflexivity).
    rewrite Hn, Hs, E, Hrun. split; [reflexivity|]. split; [reflexivity|].
    rewrite tryCatch_openTerminalInPath, E, Hrun.
    apply in_or_app. right. now left.
  - destruct (guarded_openTerminalInPath platform settings run
                (pathJoin basePath (path folder))
                (fun error : JsError =>
                   [consoleError [Str (js "Error getting folder path:"); Err error];
                    newNotice (js "Could not determine folder path.")])
                (js "Could not determine folder path."))
      as (Hn & Hs & _); try (intros; reflexivity).
    rewrite Hn, Hs, E, Hrun. split; [reflexivity|]. split; [reflexivity|].
    rewrite tryCatch_openTerminalInPath, E, Hrun.
    apply in_or_app. right. now left.
Qed.

Lemma entry_points_report_exec_throw_as_path_error_witness :
  let run := fun _ : jsstring => execThrows {| message := js "null bytes" |} in
  let trace :=
    openTerminalVaultRoot linux DEFAULT_SETTINGS run
      (FileSystemAdapter (Right [47; 118; 0]%N)) in
  spawned trace
  = [js "gnome-terminal --working-directory=" ++ [DQUOTE] ++ [47; 118; 0]%N ++ [DQUOTE]] /\
  notices trace = [js "Could not determine vault path."] /\
  In (consoleError [Str (js "Error getting vault path:");
                    Err {| message := js "null bytes" |}]) trace.
Proof.
  cbv zeta.
  assert (Hne : [47; 118; 0]%N <> []) by discriminate.
  apply (proj1 (entry_points_report_exec_throw_as_path_error linux DEFAULT_SETTINGS
                  (fun _ : jsstring => execThrows {| message := js "null bytes" |})
                  (fun a b => a ++ js "/" ++ b) {| path := js "notes" |}
                  ([47; 118; 0]%N) {| message := js "null bytes" |} Hne)).
  - reflexivity.
  - reflexivity.
Defined.

(** When the base path is missing, empty or thrown for, the user is told
    so and nothing else happens: the notice names the vault path, or the
    folder path when [getBasePath] threw under the folder menu. *)
Lemma entry_points_without_base_path (platform : jsstring)
    (settings : PluginSettings) (run : jsstring -> ExecResult)
    (pathJoin : jsstring -> jsstring -> jsstring) (folder : TFolder)
    (thrownError : JsError) :
  openTerminalVaultRoot platform settings run (FileSystemAdapter (Right []))
    = [newNotice (js "Could not determine vault path.")] /\
  openTerminalInFolder platform settings run pathJoin (FileSystemAdapter (Right [])) folder
    = [newNotice (js "Could not determine vault path.")] /\
  notices (openTerminalVaultRoot platform settings run
             (FileSystemAdapter (Left thrownError)))
    = [js "Could not determine vault path."] /\
  notices (openTerminalInFolder platform settings run pathJoin
             (FileSystemAdapter (Left thrownError)) folder)
    = [js "Could not determine folder path."] /\
  spawned (openTerminalVaultRoot platform settings run
             (FileSystemAdapter (Left thrownError)))
    = [] /\
  spawned (openTerminalInFolder platform settings run pathJoin
             (FileSystemAdapter (Left thrownError)) folder)
    = [].
Proof. repeat split. Qed.

(* ================================================================== *)
(** ** The earlier copy against [main.ts] *)
(* ================================================================== *)

Lemma earlier_copy_spawned (platform : jsstring) (settings : Part000.PluginSettings)
    (run : jsstring -> ExecResult) (folderPath : jsstring) :
  spawned (Part000Plugin.openTerminalInPath platform settings run folderPath)
  = match Part000.createTerminalCommand platform settings folderPath with
    | Left _ => []
    | Right command => [command]
    end.
Proof.
  unfold Part000Plugin.openTerminalInPath, pipe.
  destruct (Part000.createTerminalCommand platform settings folderPath) as [msg|c];
    unfold eitherFold; [reflexivity|].
  simpl. destruct (run c) as [e| |outcome]; try reflexivity.
  destruct (error outcome); reflexivity.
Qed.

Lemma earlier_copy_builds (platform : jsstring) (settings : Part000.PluginSettings)
    (folderPath : jsstring) :
  recognized platform ->
  exists command,
    Part000.createTerminalCommand platform settings folderPath = Right command.
Proof.
  intros Hr. unfold Part000.createTerminalCommand, pipe.
  destruct (Part000.terminalBin settings) as [b|]; simpl;
    destruct Hr as [ -> | [ -> | -> ] ]; eexists; reflexivity.
Qed.

(** The vault-root command of the earlier copy spawns a process on every
    recognized platform even when the adapter has no path: it builds the
    command for the empty folder path. [main.ts] spawns nothing for an
    empty base path. *)
Theorem earlier_copy_spawns_without_vault_path (platform : jsstring)
    (settings : Part000.PluginSettings) (run : jsstring -> ExecResult)
    (newSettings : PluginSettings) (newRun : jsstring -> ExecResult) :
  recognized platform ->
  (exists command,
     Part000.createTerminalCommand platform settings [] = Right command /\
     spawned (Part000Plugin.openTerminalVaultRoot platform settings run None)
     = [command] /\
     spawned (Part000Plugin.openTerminalVaultRoot platform settings run (Some []))
     = [command]) /\
  spawned (openTerminalVaultRoot platform newSettings newRun (FileSystemAdapter (Right [])))
  = [].
Proof.
  intros Hr. split; [|reflexivity].
  destruct (earlier_copy_builds platform settings [] Hr) as (c & E).
  exists c. split; [exact E|].
  unfold Part000Plugin.openTerminalVaultRoot. simpl Part000Plugin.vaultPathOf.
  rewrite earlier_copy_spawned, E. split; reflexivity.
Qed.

Lemma earlier_copy_spawns_without_vault_path_witness :
  exists command,
    Part000.createTerminalCommand linux Part000.DEFAULT_SETTINGS [] = Right command /\
    spawned (Part000Plugin.openTerminalVaultRoot linux Part000.DEFAULT_SETTINGS
               (fun _ => execCalls {| error := None; stdout := []; stderr := [] |}) None)
    = [command] /\
    spawned (Part000Plugin.openTerminalVaultRoot linux Part000.DEFAULT_SETTINGS
               (fun _ => execCalls {| error := None; stdout := []; stderr := [] |})
               (Some []))
    = [command].
Proof.
  apply (earlier_copy_spawns_without_vault_path linux Part000.DEFAULT_SETTINGS
           (fun _ => execCalls {| error := None; stdout := []; stderr := [] |})
           DEFAULT_SETTINGS
           (fun _ => execCalls {| error := None; stdout := []; stderr := [] |})).
  right; right; reflexivity.
Defined.

(** Settings of the earlier copy, read as settings of [main.ts]. *)
Lemma versions_agree_off_windows_aux (bin : option jsstring) (folderPath : jsstring) :
  createTerminalCommand darwin {| terminalBin := bin; terminalArgs := None |} folderPath
  = Part000.createTerminalCommand darwin {| Part000.terminalBin := bin |} folderPath /\
  createTerminalCommand linux {| terminalBin := bin; terminalArgs := None |} folderPath
  = Part000.createTerminalCommand linux {| Part000.terminalBin := bin |} folderPath.
Proof. destruct bin; split; reflexivity. Qed.

(** The two copies build the same command on macOS and on Linux, with or
    without a custom binary, and never the same command on Windows. *)
Theorem versions_agree_off_windows (bin : option jsstring) (folderPath : jsstring) :
  createTerminalCommand darwin {| terminalBin := bin; terminalArgs := None |} folderPath
  = Part000.createTerminalCommand darwin {| Part000.terminalBin := bin |} folderPath /\
  createTerminalCommand linux {| terminalBin := bin; terminalArgs := None |} folderPath
  = Part000.createTerminalCommand linux {| Part000.terminalBin := bin |} folderPath /\
  createTerminalCommand win32 {| terminalBin := bin; terminalArgs := None |} folderPath
  <> Part000.createTerminalCommand win32 {| Part000.terminalBin := bin |} folderPath.
Proof.
  destruct (versions_agree_off_windows_aux bin folderPath) as (Hd & Hl).
  split; [exact Hd|]. split; [exact Hl|].
  destruct bin as [b|]; intros E; apply Right_inj in E.
  - unfold quoted in E. simpl in E. discriminate E.
  - simpl in E. discriminate E.
Qed.

(* ================================================================== *)
(** ** Stored settings *)
(* ================================================================== *)

(** Settings saved and loaded again are the same settings, and with no
    stored data the settings are the defaults, on which the builder
    infers the terminal. *)
Theorem loadSettings_round_trip (settings : PluginSettings) :
  loadSettings (Some (saveSettings settings)) = settings /\
  loadSettings None = DEFAULT_SETTINGS /\
  forall platform folderPath,
    createTerminalCommand platform (loadSettings None) folderPath
    = eitherFold (fun error => Left error) (inferredCommand platform folderPath)
        (inferTerminalCommand platform).
Proof.
  split; [now destruct settings|]. split; [reflexivity|].
  intros platform folderPath. now apply createTerminalCommand_inferred.
Qed.

(** Data stored by the earlier copy holds the custom binary only. Loaded
    by [main.ts] it gives no template, and on macOS and on Linux the
    command the earlier copy built from those settings. *)
Theorem loadSettings_of_earlier_copy (settings : Part000.PluginSettings)
    (folderPath : jsstring) :
  let loaded := loadSettings (Some (Part000Plugin.saveSettings settings)) in
  terminalBin loaded = Part000.terminalBin settings /\
  terminalArgs loaded = None /\
  createTerminalCommand darwin loaded folderPath
  = Part000.createTerminalCommand darwin settings folderPath /\
  createTerminalCommand linux loaded folderPath
  = Part000.createTerminalCommand linux settings folderPath.
Proof.
  destruct settings as [bin]. cbv zeta.
  destruct (versions_agree_off_windows_aux bin folderPath) as (Hd & Hl).
  repeat split; assumption.
Qed.

(* ================================================================== *)
(** ** The settings tab *)
(* ================================================================== *)

(** The settings tab and the builder agree: on a recognized platform the
    tab names the inferred binary, and the command built with the default
    settings holds that binary; on any other platform the tab shows the
    error with which the builder fails. *)
Theorem inferredTerminalText_agrees (platform folderPath : jsstring) :
  match inferTerminalCommand platform with
  | Right termCmd =>
      inferredTerminalText platform
      = js "System default terminal: " ++ binary termCmd ++ js " (with args: "
          ++ join (js " ") (args termCmd) ++ js ")" /\
      exists out,
        createTerminalCommand platform DEFAULT_SETTINGS folderPath = Right out /\
        Substring (binary termCmd) out
  | Left message =>
      inferredTerminalText platform = js "System default terminal: Error: " ++ message /\
      createTerminalCommand platform DEFAULT_SETTINGS folderPath = Left message
  end.
Proof.
  unfold inferredTerminalText, createTerminalCommand, pipe; simpl fold.
  destruct (recognized_or_not platform) as [Hr|Hn].
  - destruct Hr as [ -> | [ -> | -> ] ]; simpl; (split; [reflexivity|]);
      eexists; (split; [reflexivity|]).
    + occurs_between (js "start /d " ++ quoted folderPath ++ js " ") (js " -noexit").
    + occurs_between (js "open -a ") (js " " ++ quoted folderPath).
    + occurs_between (@nil codeUnit) (js " --working-directory=" ++ quoted folderPath).
  - destruct (unrecognized_switch platform Hn) as (Hw & Hd & Hl).
    unfold inferTerminalCommand. rewrite Hw, Hd, Hl. simpl. split; reflexivity.
Qed.
